(** * AccuWeather weather entity: a shallow embedding of
      [homeassistant/components/accuweather/weather.py]

    The entity is a read-only view over the data a coordinator fetched: every
    property reads [self.coordinator.data] (a nested mapping decoded from the
    vendor's JSON) by string keys and either returns what it finds or lets the
    lookup failure escape.  The embedding keeps that shape:

    - Python values are the inductive [pyval]; a mapping is a [gmap string pyval];
    - an expression that may raise evaluates to a [res] ([Ok] or [Raise]);
    - a property of the entity is a computation [M self A]: it takes the entity
      and gives back a result together with the entity as it is afterwards. *)

From Stdlib Require Import ZArith String Ascii List Bool Lia.
From Stdlib Require Import Floats.PrimFloat Floats.FloatOps Floats.SpecFloat.
From stdpp Require Import gmap strings list fin_maps.

Set Warnings "-register-all".
Local Open Scope string_scope.
Local Open Scope Z_scope.

(** ** Python values, exceptions and evaluation results *)

Module Py.

(** The exceptions the entity's code can meet. *)
Inductive exn : Type :=
| KeyError (key : string)
| IndexError
| TypeError
| ValueError
| OverflowError.

Inductive res (A : Type) : Type :=
| Ok (a : A)
| Raise (e : exn).
Arguments Ok {A} a.
Arguments Raise {A} e.

Definition is_Ok {A} (r : res A) : Prop := exists a, r = Ok a.

(** A failed lookup: the key is not there ([KeyError]) or the object is not
    one that can be looked into by a string key ([TypeError]). *)
Definition lookup_failure (e : exn) : Prop :=
  e = TypeError \/ exists k, e = KeyError k.

Definition rbind {A B} (r : res A) (k : A -> res B) : res B :=
  match r with
  | Ok a => k a
  | Raise e => Raise e
  end.

(** What [json.loads] produces: the coordinator's data is built from these. *)
Inductive pyval : Type :=
| VNone
| VBool (b : bool)
| VInt (z : Z)
| VFloat (f : float)
| VStr (s : string)
| VList (l : list pyval)
| VDict (d : gmap string pyval).

(** [bool(v)] *)
Definition truthy (v : pyval) : bool :=
  match v with
  | VNone => false
  | VBool b => b
  | VInt z => negb (z =? 0)
  | VFloat f => negb (PrimFloat.eqb f 0%float)
  | VStr s => negb (String.eqb s "")
  | VList l => match l with [] => false | _ :: _ => true end
  | VDict d => negb (bool_decide (d = ∅))
  end.

(** [v[key]] for a string [key]: only a mapping accepts one. *)
Definition getitem (v : pyval) (key : string) : res pyval :=
  match v with
  | VDict d =>
      match d !! key with
      | Some x => Ok x
      | None => Raise (KeyError key)
      end
  | _ => Raise TypeError
  end.

(** [r[key]] where [r] is itself the value of a subscript expression. *)
Definition subscript (r : res pyval) (key : string) : res pyval :=
  rbind r (fun v => getitem v key).

(** [v[k1][k2]...[kn]] *)
Definition getpath (v : pyval) (path : list string) : res pyval :=
  fold_left subscript path (Ok v).

(** The path cannot be followed into [v]: on the way a key is missing, or
    what should be a mapping is of another type. *)
Inductive broken : pyval -> list string -> Prop :=
| broken_type v key path :
    (forall d, v <> VDict d) -> broken v (key :: path)
| broken_missing d key path :
    d !! key = None -> broken (VDict d) (key :: path)
| broken_deeper d key v path :
    d !! key = Some v -> broken v path -> broken (VDict d) (key :: path).

(** [l[0]] on a list a comprehension built. *)
Definition first {A} (l : list A) : res A :=
  match l with
  | x :: _ => Ok x
  | [] => Raise IndexError
  end.

Definition chars (s : string) : list pyval :=
  (fun c => VStr (String c EmptyString)) <$> list_ascii_of_string s.

(** The items a [for] loop draws from [v].  A mapping yields its keys; the
    order [map_to_list] gives them in is not Python's insertion order. *)
Definition iter (v : pyval) : res (list pyval) :=
  match v with
  | VList l => Ok l
  | VDict d => Ok (VStr <$> (map_to_list d).*1)
  | VStr s => Ok (chars s)
  | _ => Raise TypeError
  end.

(** The exact value of a float as an integer, when it has one. *)
Definition float_to_Z (f : float) : option Z :=
  match Prim2SF f with
  | S754_zero _ => Some 0
  | S754_finite s m e =>
      let n := if s then Z.neg m else Z.pos m in
      if 0 <=? e then Some (n * 2 ^ e)
      else if n mod 2 ^ (- e) =? 0 then Some (n / 2 ^ (- e)) else None
  | _ => None
  end.

(** [v == z] for an integer [z]: numbers compare by value ([True == 1],
    [1.0 == 1]); nothing else equals an integer. *)
Definition eq_int (v : pyval) (z : Z) : bool :=
  match v with
  | VInt a => a =? z
  | VBool b => (if b then 1 else 0) =? z
  | VFloat f => match float_to_Z f with Some a => a =? z | None => false end
  | _ => false
  end.

(** [v in codes] for a list of integers. *)
Definition contains (v : pyval) (codes : list Z) : bool :=
  existsb (eq_int v) codes.

(** [[f(x) for x in l]]: elements in order, the first exception escapes. *)
Fixpoint comprehension {A B} (f : A -> res B) (l : list A) : res (list B) :=
  match l with
  | [] => Ok []
  | x :: l' =>
      rbind (f x) (fun y => rbind (comprehension f l') (fun ys => Ok (y :: ys)))
  end.

(** *** Computations over an object *)

Definition M (S A : Type) : Type := S -> res A * S.

Definition ret {S A} (a : A) : M S A := fun s => (Ok a, s).

Definition bind {S A B} (m : M S A) (k : A -> M S B) : M S B :=
  fun s =>
    match m s with
    | (Ok a, s') => k a s'
    | (Raise e, s') => (Raise e, s')
    end.

(** Evaluate an expression that reads the object. *)
Definition reads {S A} (f : S -> res A) : M S A := fun s => (f s, s).

(** [try: body  except IndexError: handler] *)
Definition try_except_IndexError {S A} (body handler : M S A) : M S A :=
  fun s =>
    match body s with
    | (Raise IndexError, s') => handler s'
    | other => other
    end.

(** The computation fails at a lookup and leaves the object as it was. *)
Definition fails_lookup {S A} (m : M S A) (s : S) : Prop :=
  exists e, m s = (Raise e, s) /\ lookup_failure e.

(** The computation leaves the object as it was, whatever it returns. *)
Definition read_only {S A} (m : M S A) : Prop := forall s, snd (m s) = s.

End Py.

Import Py.

Declare Scope py_scope.
Delimit Scope py_scope with py.
Notation "x <- m ;; k" := (bind m (fun x => k))
  (at level 100, m at next level, right associativity) : py_scope.
Notation "r .[ k ]" := (subscript r k) (at level 1, left associativity, format "r .[ k ]") : py_scope.

Local Open Scope py_scope.

(** ** Timestamps: [homeassistant.util.dt.utc_from_timestamp] and
       [datetime.isoformat] *)

Module dt.

(** A [datetime] whose [tzinfo] is UTC. *)
Record datetime : Type := {
  year : Z;
  month : Z;
  day : Z;
  hour : Z;
  minute : Z;
  second : Z;
  microsecond : Z
}.

(** The proleptic Gregorian calendar, with days counted from 0001-01-01 as
    day 1 (the [datetime] module's ordinals). *)

Definition is_leap (y : Z) : bool :=
  (y mod 4 =? 0) && (negb (y mod 100 =? 0) || (y mod 400 =? 0)).

Definition DAYS_IN_MONTH : list Z :=
  [31; 28; 31; 30; 31; 30; 31; 31; 30; 31; 30; 31].

Definition DAYS_BEFORE_MONTH : list Z :=
  [0; 31; 59; 90; 120; 151; 181; 212; 243; 273; 304; 334].

Definition table (t : list Z) (m : Z) : Z := nth (Z.to_nat (m - 1)) t 0.

Definition days_in_month (leap : bool) (m : Z) : Z :=
  table DAYS_IN_MONTH m + (if (m =? 2) && leap then 1 else 0).

Definition days_before_month (leap : bool) (m : Z) : Z :=
  table DAYS_BEFORE_MONTH m + (if (2 <? m) && leap then 1 else 0).

Definition days_before_year (y : Z) : Z :=
  let y := y - 1 in y * 365 + y / 4 - y / 100 + y / 400.

Definition ymd2ord (y m d : Z) : Z :=
  days_before_year y + days_before_month (is_leap y) m + d.

(** Month and day of the [n]-th day (from 0) of a year. *)
Definition month_day (leap : bool) (n : Z) : Z * Z :=
  let m := (n + 50) / 32 in
  let preceding := days_before_month leap m in
  if n <? preceding
  then (m - 1, n - (preceding - days_in_month leap (m - 1)) + 1)
  else (m, n - preceding + 1).

Definition ord2ymd (n : Z) : Z * Z * Z :=
  let n := n - 1 in
  let n400 := n / 146097 in
  let n := n mod 146097 in
  let n100 := n / 36524 in
  let n := n mod 36524 in
  let n4 := n / 1461 in
  let n := n mod 1461 in
  let n1 := n / 365 in
  let n := n mod 365 in
  let y := n400 * 400 + 1 + n100 * 100 + n4 * 4 + n1 in
  if (n1 =? 4) || (n100 =? 4) then (y - 1, 12, 31)
  else
    let leap := (n1 =? 3) && (negb (n4 =? 24) || (n100 =? 3)) in
    let '(m, d) := month_day leap n in
    (y, m, d).

(** 1970-01-01 is day 719163. *)
Definition EPOCH_ORDINAL : Z := 719163.

(** The first and last second a [datetime] can hold (years 1 to 9999). *)
Definition MIN_TIMESTAMP : Z := -62135596800.
Definition MAX_TIMESTAMP : Z := 253402300799.

(** The instant [us] microseconds after the epoch. *)
Definition from_microseconds (us : Z) : res datetime :=
  let t := us / 1000000 in
  if (t <? MIN_TIMESTAMP) || (MAX_TIMESTAMP <? t) then Raise ValueError
  else
    let '(y, m, d) := ord2ymd (t / 86400 + EPOCH_ORDINAL) in
    let s := t mod 86400 in
    Ok {| year := y; month := m; day := d;
          hour := s / 3600; minute := s mod 3600 / 60; second := s mod 60;
          microsecond := us mod 1000000 |}.

(** [num / den] rounded to the nearest integer, a tie going to the even one. *)
Definition round_half_even (num den : Z) : Z :=
  let q := num / den in
  let r := num mod den in
  match 2 * r ?= den with
  | Lt => q
  | Gt => q + 1
  | Eq => if Z.even q then q else q + 1
  end.

(** Modelled from the spec: [homeassistant/util/dt.py] is not among the
    sources.  There [utc_from_timestamp] is [datetime.fromtimestamp] with
    [tz=UTC]; the spec has it turn epoch seconds into an instant in UTC.  A
    whole number of seconds gives that second; a float is rounded to the
    microsecond, ties to even, its value being taken exactly; a timestamp
    outside the years 1 to 9999 is refused, as is a value that is no number. *)
Definition utc_from_timestamp (ts : pyval) : res datetime :=
  match ts with
  | VInt t => from_microseconds (t * 1000000)
  | VBool b => from_microseconds ((if b then 1 else 0) * 1000000)
  | VFloat f =>
      match Prim2SF f with
      | S754_zero _ => from_microseconds 0
      | S754_finite s m e =>
          let n := (if s then Z.neg m else Z.pos m) * 1000000 in
          from_microseconds
            (if 0 <=? e then n * 2 ^ e else round_half_even n (2 ^ (- e)))
      | S754_infinity _ => Raise OverflowError
      | S754_nan => Raise ValueError
      end
  | _ => Raise TypeError
  end.

Definition digit (n : Z) : ascii := ascii_of_nat (48 + Z.to_nat n).

(** [n] in decimal on [width] digits, zero-padded. *)
Fixpoint decimal (width : nat) (n : Z) : string :=
  match width with
  | O => ""
  | S w => decimal w (n / 10) ++ String (digit (n mod 10)) ""
  end.

(** [d.isoformat()] for a [datetime] in UTC:
    [YYYY-MM-DDTHH:MM:SS+00:00], with [.ffffff] after the seconds when the
    microseconds are not zero. *)
Definition isoformat (d : datetime) : string :=
  decimal 4 (year d) ++ "-" ++ decimal 2 (month d) ++ "-" ++ decimal 2 (day d)
  ++ "T" ++ decimal 2 (hour d) ++ ":" ++ decimal 2 (minute d) ++ ":"
  ++ decimal 2 (second d)
  ++ (if microsecond d =? 0 then "" else "." ++ decimal 6 (microsecond d))
  ++ "+00:00".

(** Reading an ISO-8601 instant back: the fields of a string laid out as
    [YYYY-MM-DDTHH:MM:SS+00:00], and the epoch second they name. *)

Definition digit_value (c : ascii) : option Z :=
  let n := Z.of_nat (nat_of_ascii c) in
  if (48 <=? n) && (n <=? 57) then Some (n - 48) else None.

Fixpoint number (acc : Z) (cs : list ascii) : option Z :=
  match cs with
  | [] => Some acc
  | c :: cs' =>
      match digit_value c with
      | Some v => number (acc * 10 + v) cs'
      | None => None
      end
  end.

Definition fields_of_iso (s : string) : option (Z * Z * Z * Z * Z * Z) :=
  match list_ascii_of_string s with
  | [y1; y2; y3; y4; p1; m1; m2; p2; d1; d2; p3; h1; h2; p4; n1; n2; p5; s1; s2;
     z1; z2; z3; z4; z5; z6] =>
      if String.eqb (string_of_list_ascii [p1; p2; p3; p4; p5; z1; z2; z3; z4; z5; z6])
                    "--T::+00:00"
      then
        match number 0 [y1; y2; y3; y4], number 0 [m1; m2], number 0 [d1; d2],
              number 0 [h1; h2], number 0 [n1; n2], number 0 [s1; s2] with
        | Some y, Some m, Some d, Some hh, Some mm, Some ss =>
            Some (y, m, d, hh, mm, ss)
        | _, _, _, _, _, _ => None
        end
      else None
  | _ => None
  end.

Definition timestamp_of_fields (f : Z * Z * Z * Z * Z * Z) : Z :=
  let '(y, m, d, hh, mm, ss) := f in
  (ymd2ord y m d - EPOCH_ORDINAL) * 86400 + hh * 3600 + mm * 60 + ss.

(** A date of the calendar and a time of day. *)
Definition valid_fields (f : Z * Z * Z * Z * Z * Z) : Prop :=
  let '(y, m, d, hh, mm, ss) := f in
  1 <= y <= 9999 /\ 1 <= m <= 12 /\ 1 <= d <= days_in_month (is_leap y) m /\
  0 <= hh < 24 /\ 0 <= mm < 60 /\ 0 <= ss < 60.

(** [p] holds at 0, 1, ..., [n - 1]. *)
Definition all_below (n : N) (p : Z -> bool) : bool :=
  N.iter n (fun k i => p i && k (i + 1)) (fun _ => true) 0.

(** What [month_day] must give at the [n]-th day of a year. *)
Definition month_day_check (leap : bool) (n : Z) : bool :=
  let '(m, d) := month_day leap n in
  (1 <=? m) && (m <=? 12) && (1 <=? d) && (d <=? days_in_month leap m)
  && (days_before_month leap m + d =? n + 1).

End dt.

(** ** What the entity imports *)

(** Modelled from the spec: [homeassistant/const.py] is not among the
    sources.  The spec fixes the units the entity declares (kilometres,
    millimetres, hectopascals, degrees Celsius, kilometres per hour); each
    enumeration lists that unit among others of its kind. *)
Module UnitOfLength.
Inductive t : Type := MILLIMETERS | CENTIMETERS | METERS | KILOMETERS | INCHES | FEET | YARDS | MILES.
End UnitOfLength.

Module UnitOfPrecipitationDepth.
Inductive t : Type := INCHES | MILLIMETERS | CENTIMETERS.
End UnitOfPrecipitationDepth.

Module UnitOfPressure.
Inductive t : Type := PA | HPA | KPA | BAR | CBAR | MBAR | MMHG | INHG | PSI.
End UnitOfPressure.

Module UnitOfSpeed.
Inductive t : Type := FEET_PER_SECOND | KILOMETERS_PER_HOUR | KNOTS | METERS_PER_SECOND | MILES_PER_HOUR.
End UnitOfSpeed.

Module UnitOfTemperature.
Inductive t : Type := CELSIUS | FAHRENHEIT | KELVIN.
End UnitOfTemperature.

(** [.const]: the integration's constants.  The file that binds them is not
    among the sources, so the entity is modelled over any binding of them.
    [CONDITION_CLASSES] is a [dict] from a condition's name to the list of the
    vendor's icon codes that mean it; it is kept as its [items()], in the order
    the [dict] was written. *)
Module const.
Record t : Type := {
  API_METRIC : string;
  ATTR_FORECAST : string;
  ATTRIBUTION : string;
  CONDITION_CLASSES : list (string * list Z)
}.
End const.

(** [AccuWeatherDataUpdateCoordinator], as far as the entity reads it: the
    data of the last fetch, the [forecast] attribute, the location's key and
    the device's description. *)
Module Coordinator.
Record t : Type := {
  data : pyval;
  forecast : pyval;
  location_key : string;
  device_info : pyval
}.
End Coordinator.

(** [homeassistant.components.weather.Forecast]: the [TypedDict] of one day,
    a field per key the entity fills in, named as the constant that holds
    the key. *)
Record Forecast : Type := {
  ATTR_FORECAST_TIME : string;
  ATTR_FORECAST_NATIVE_TEMP : pyval;
  ATTR_FORECAST_NATIVE_TEMP_LOW : pyval;
  ATTR_FORECAST_NATIVE_PRECIPITATION : pyval;
  ATTR_FORECAST_PRECIPITATION_PROBABILITY : pyval;
  ATTR_FORECAST_NATIVE_WIND_SPEED : pyval;
  ATTR_FORECAST_WIND_BEARING : pyval;
  ATTR_FORECAST_CONDITION : string
}.

Notation "x <~ r ;; k" := (rbind r (fun x => k))
  (at level 100, r at next level, right associativity) : py_scope.

(** [[k for k, v in items if cond(v)]]: [cond] is evaluated at every item, and
    an exception it raises escapes. *)
Fixpoint select {K V} (cond : V -> res bool) (items : list (K * V)) : res (list K) :=
  match items with
  | [] => Ok []
  | (k, v) :: rest =>
      b <~ cond v ;;
      ks <~ select cond rest ;;
      Ok (if b : bool then k :: ks else ks)
  end.

(** ** The entity *)

Module AccuWeatherEntity.

Record t : Type := {
  coordinator : Coordinator.t;
  _attr_native_precipitation_unit : UnitOfPrecipitationDepth.t;
  _attr_native_pressure_unit : UnitOfPressure.t;
  _attr_native_temperature_unit : UnitOfTemperature.t;
  _attr_native_visibility_unit : UnitOfLength.t;
  _attr_native_wind_speed_unit : UnitOfSpeed.t;
  _attr_unique_id : string;
  _attr_attribution : string;
  _attr_device_info : pyval
}.

Definition _attr_has_entity_name : bool := true.
Definition _attr_name : option string := None.

(** [self.coordinator.data] *)
Definition data (self : t) : res pyval := Ok (Coordinator.data (coordinator self)).

Section Const.

Variable K : const.t.

(** [__init__]: [super().__init__(coordinator)] keeps the coordinator in
    [self.coordinator]; the rest are the assignments of the body. *)
Definition __init__ (coordinator : Coordinator.t) : t :=
  {| coordinator := coordinator;
     _attr_native_precipitation_unit := UnitOfPrecipitationDepth.MILLIMETERS;
     _attr_native_pressure_unit := UnitOfPressure.HPA;
     _attr_native_temperature_unit := UnitOfTemperature.CELSIUS;
     _attr_native_visibility_unit := UnitOfLength.KILOMETERS;
     _attr_native_wind_speed_unit := UnitOfSpeed.KILOMETERS_PER_HOUR;
     _attr_unique_id := Coordinator.location_key coordinator;
     _attr_attribution := const.ATTRIBUTION K;
     _attr_device_info := Coordinator.device_info coordinator |}.

(** [[k for k, v in CONDITION_CLASSES.items() if icon in v]], where [icon] is
    a subscript expression evaluated anew at each entry of the table. *)
Definition classes_of (icon : res pyval) : res (list string) :=
  select (fun v => x <~ icon ;; Ok (contains x v)) (const.CONDITION_CLASSES K).

Definition condition : M t (option string) :=
  try_except_IndexError
    (ks <- reads (fun self => classes_of (data self).["WeatherIcon"]) ;;
     k <- reads (fun _ => first ks) ;;
     ret (Some k))
    (ret None).

(** [cast] returns its argument as it is. *)
Definition native_temperature : M t pyval :=
  reads (fun self => (data self).["Temperature"].[const.API_METRIC K].["Value"]).

Definition native_pressure : M t pyval :=
  reads (fun self => (data self).["Pressure"].[const.API_METRIC K].["Value"]).

Definition humidity : M t pyval :=
  reads (fun self => (data self).["RelativeHumidity"]).

Definition native_wind_speed : M t pyval :=
  reads (fun self => (data self).["Wind"].["Speed"].[const.API_METRIC K].["Value"]).

Definition wind_bearing : M t pyval :=
  reads (fun self => (data self).["Wind"].["Direction"].["Degrees"]).

Definition native_visibility : M t pyval :=
  reads (fun self => (data self).["Visibility"].[const.API_METRIC K].["Value"]).

(** The dictionary built for one [item] of the forecast; its values are
    evaluated in the order they are written. *)
Definition forecast_entry (item : pyval) : res Forecast :=
  time <~ (d <~ (Ok item).["EpochDate"] ;; d <~ dt.utc_from_timestamp d ;; Ok (dt.isoformat d)) ;;
  temp <~ (Ok item).["TemperatureMax"].["Value"] ;;
  templow <~ (Ok item).["TemperatureMin"].["Value"] ;;
  precipitation <~ (Ok item).["TotalLiquidDay"].["Value"] ;;
  probability <~ (Ok item).["PrecipitationProbabilityDay"] ;;
  wind_speed <~ (Ok item).["WindDay"].["Speed"].["Value"] ;;
  bearing <~ (Ok item).["WindDay"].["Direction"].["Degrees"] ;;
  cond <~ (ks <~ classes_of (Ok item).["IconDay"] ;; first ks) ;;
  Ok {| ATTR_FORECAST_TIME := time;
        ATTR_FORECAST_NATIVE_TEMP := temp;
        ATTR_FORECAST_NATIVE_TEMP_LOW := templow;
        ATTR_FORECAST_NATIVE_PRECIPITATION := precipitation;
        ATTR_FORECAST_PRECIPITATION_PROBABILITY := probability;
        ATTR_FORECAST_NATIVE_WIND_SPEED := wind_speed;
        ATTR_FORECAST_WIND_BEARING := bearing;
        ATTR_FORECAST_CONDITION := cond |}.

(** The item has all an entry is built from: a timestamp [datetime] can
    hold, a value under each of the paths read, and an icon that some
    condition lists. *)
Definition complete (item : pyval) : Prop :=
  is_Ok (d <~ (Ok item).["EpochDate"] ;; dt.utc_from_timestamp d) /\
  is_Ok (Ok item).["TemperatureMax"].["Value"] /\
  is_Ok (Ok item).["TemperatureMin"].["Value"] /\
  is_Ok (Ok item).["TotalLiquidDay"].["Value"] /\
  is_Ok (Ok item).["PrecipitationProbabilityDay"] /\
  is_Ok (Ok item).["WindDay"].["Speed"].["Value"] /\
  is_Ok (Ok item).["WindDay"].["Direction"].["Degrees"] /\
  exists icon,
    (Ok item).["IconDay"] = Ok icon /\
    Exists (fun kv => contains icon (snd kv) = true) (const.CONDITION_CLASSES K).

Definition forecast : M t (option (list Forecast)) :=
  enabled <- reads (fun self => Ok (truthy (Coordinator.forecast (coordinator self)))) ;;
  if negb enabled then ret None
  else
    items <- reads (fun self => v <~ (data self).[const.ATTR_FORECAST K] ;; iter v) ;;
    entries <- reads (fun _ => comprehension forecast_entry items) ;;
    ret (Some entries).

End Const.

End AccuWeatherEntity.

(** ** Sample data for the examples *)

Module Sample.

Definition CONDITION_CLASSES : list (string * list Z) :=
  [ ("clear-night", [33; 34; 37]);
    ("cloudy", [7; 8; 38]);
    ("exceptional", [24; 30; 31]);
    ("fog", [11]);
    ("hail", [25]);
    ("lightning", [15]);
    ("lightning-rainy", [16; 17; 41; 42]);
    ("partlycloudy", [3; 4; 6; 35; 36]);
    ("pouring", [18]);
    ("rainy", [12; 13; 14; 26; 39; 40]);
    ("snowy", [19; 20; 21; 22; 23; 43; 44]);
    ("snowy-rainy", [29]);
    ("sunny", [1; 2; 5]);
    ("windy", [32]) ].

Definition K : const.t :=
  {| const.API_METRIC := "Metric";
     const.ATTR_FORECAST := "forecast";
     const.ATTRIBUTION := "Data provided by AccuWeather";
     const.CONDITION_CLASSES := CONDITION_CLASSES |}.

Definition value (v : pyval) : pyval := VDict {[ "Value" := v ]}.

(** One day of the vendor's forecast. *)
Definition day (epoch icon : Z) : pyval :=
  VDict (list_to_map
    [ ("EpochDate", VInt epoch);
      ("TemperatureMax", value (VFloat 23.5%float));
      ("TemperatureMin", value (VFloat 11.0%float));
      ("TotalLiquidDay", value (VFloat 2.5%float));
      ("PrecipitationProbabilityDay", VInt 60);
      ("WindDay", VDict (list_to_map
         [ ("Speed", value (VFloat 13.0%float));
           ("Direction", VDict {[ "Degrees" := VInt 166 ]}) ]));
      ("IconDay", VInt icon) ]).

(** The current conditions, and the forecast under the key [forecast]. *)
Definition current (icon : pyval) (days : list pyval) : pyval :=
  VDict (list_to_map
    [ ("WeatherIcon", icon);
      ("Temperature", VDict {[ "Metric" := value (VFloat 21.5%float) ]});
      ("Pressure", VDict {[ "Metric" := value (VFloat 1012.0%float) ]});
      ("RelativeHumidity", VInt 67);
      ("Wind", VDict (list_to_map
         [ ("Speed", VDict {[ "Metric" := value (VFloat 20.5%float) ]});
           ("Direction", VDict {[ "Degrees" := VInt 252 ]}) ]));
      ("Visibility", VDict {[ "Metric" := value (VFloat 16.0%float) ]});
      ("forecast", VList days) ]).

Definition coordinator (data flag : pyval) (key : string) : Coordinator.t :=
  {| Coordinator.data := data;
     Coordinator.forecast := flag;
     Coordinator.location_key := key;
     Coordinator.device_info := VDict {[ "name" := VStr "Home" ]} |}.

Definition entity (data flag : pyval) : AccuWeatherEntity.t :=
  AccuWeatherEntity.__init__ K (coordinator data flag "0123456").

(** The entry built from [day epoch icon]. *)
Definition entry (time condition : string) : Forecast :=
  {| ATTR_FORECAST_TIME := time;
     ATTR_FORECAST_NATIVE_TEMP := VFloat 23.5%float;
     ATTR_FORECAST_NATIVE_TEMP_LOW := VFloat 11.0%float;
     ATTR_FORECAST_NATIVE_PRECIPITATION := VFloat 2.5%float;
     ATTR_FORECAST_PRECIPITATION_PROBABILITY := VInt 60;
     ATTR_FORECAST_NATIVE_WIND_SPEED := VFloat 13.0%float;
     ATTR_FORECAST_WIND_BEARING := VInt 166;
     ATTR_FORECAST_CONDITION := condition |}.

(** Five days in a row, and what they are remapped to. *)
Definition five_days : list pyval :=
  [ day 1688166000 1; day 1688252400 18; day 1688338800 7; day 1688425200 15;
    day 1688511600 32 ].

Definition five_entries : list Forecast :=
  [ entry "2023-06-30T23:00:00+00:00" "sunny";
    entry "2023-07-01T23:00:00+00:00" "pouring";
    entry "2023-07-02T23:00:00+00:00" "cloudy";
    entry "2023-07-03T23:00:00+00:00" "lightning";
    entry "2023-07-04T23:00:00+00:00" "windy" ].

(** A table in which code 18 stands under two names. *)
Definition OVERLAPPING : const.t :=
  {| const.API_METRIC := "Metric";
     const.ATTR_FORECAST := "forecast";
     const.ATTRIBUTION := "Data provided by AccuWeather";
     const.CONDITION_CLASSES := [ ("sunny", [1; 2; 5]); ("rainy", [12; 18]); ("pouring", [18]) ] |}.

(** A payload gone wrong: a number where the temperature's mapping should
    be, a list under the wind's speed, and the other keys missing. *)
Definition malformed : pyval :=
  VDict (list_to_map
    [ ("Temperature", VFloat 21.5%float);
      ("Wind", VDict {[ "Speed" := VList [] ]}) ]).

End Sample.

(** ** Paths that can be followed, and setting the platform up *)

(** The path leads from [v] to [x]: every key on it is found in a mapping. *)
Inductive leads_to : pyval -> list string -> pyval -> Prop :=
| leads_here v : leads_to v [] v
| leads_through d key v path x :
    d !! key = Some v -> leads_to v path x -> leads_to (VDict d) (key :: path) x.

(** A value that equals no number: [None], a string, a list or a mapping. *)
Definition not_a_number (v : pyval) : Prop :=
  match v with
  | VNone | VStr _ | VList _ | VDict _ => True
  | VBool _ | VInt _ | VFloat _ => False
  end.

(** A value a [for] loop cannot draw from. *)
Definition not_iterable (v : pyval) : Prop :=
  match v with
  | VNone | VBool _ | VInt _ | VFloat _ => True
  | VStr _ | VList _ | VDict _ => False
  end.

(** [homeassistant.config_entries.ConfigEntry], of which the platform reads
    the identifier. *)
Module ConfigEntry.
Record t : Type := { entry_id : string }.
End ConfigEntry.

(** [homeassistant.core.HomeAssistant], of which the platform reads [data]:
    under an integration's domain, what the integration stored for each of
    its config entries; here, coordinators. *)
Module HomeAssistant.
Record t : Type := { data : gmap string (gmap string Coordinator.t) }.
End HomeAssistant.

Section Platform.

Variable K : const.t.

(** [.const.DOMAIN] *)
Variable DOMAIN : string.

(** The state of whoever receives the new entities. *)
Variable S : Type.

(** [hass.data[DOMAIN][entry.entry_id]] *)
Definition stored_coordinator (hass : HomeAssistant.t) (entry : ConfigEntry.t) : res Coordinator.t :=
  match HomeAssistant.data hass !! DOMAIN with
  | Some stored =>
      match stored !! ConfigEntry.entry_id entry with
      | Some coordinator => Ok coordinator
      | None => Raise (KeyError (ConfigEntry.entry_id entry))
      end
  | None => Raise (KeyError DOMAIN)
  end.

(** The body has no [await]: run, it looks the coordinator up and hands one
    new entity to the callback. *)
Definition async_setup_entry (hass : HomeAssistant.t) (entry : ConfigEntry.t)
    (async_add_entities : list AccuWeatherEntity.t -> M S unit) : M S unit :=
  coordinator <- reads (fun _ => stored_coordinator hass entry) ;;
  async_add_entities [AccuWeatherEntity.__init__ K coordinator].

End Platform.

(** An [async_add_entities] that appends to the entities of a platform. *)
Definition add_entities (new : list AccuWeatherEntity.t) : M (list AccuWeatherEntity.t) unit :=
  fun entities => (Ok tt, (entities ++ new)%list).

(** ** More sample data *)

Module Home.

(** Constants with no condition class at all. *)
Definition NO_CLASSES : const.t :=
  {| const.API_METRIC := "Metric";
     const.ATTR_FORECAST := "forecast";
     const.ATTRIBUTION := "Data provided by AccuWeather";
     const.CONDITION_CLASSES := [] |}.

Definition coordinator : Coordinator.t :=
  Sample.coordinator (Sample.current (VInt 18) Sample.five_days) (VBool true) "0123456".

(** One config entry of the integration, with its coordinator stored. *)
Definition hass : HomeAssistant.t :=
  {| HomeAssistant.data := {[ "accuweather" := {[ "entry-1" := coordinator ]} ]} |}.

(** Data that hold [v] under the forecast key and nothing else. *)
Definition only_forecast (v : pyval) : pyval := VDict {[ "forecast" := v ]}.

(** Two days and what they are remapped to. *)
Definition two_days : list pyval := [ Sample.day 0 1; Sample.day 86400 18 ].

Definition two_entries : list Forecast :=
  [ Sample.entry "1970-01-01T00:00:00+00:00" "sunny";
    Sample.entry "1970-01-02T00:00:00+00:00" "pouring" ].

(** Three days, the second with an icon no condition lists. *)
Definition three_days : list pyval :=
  [ Sample.day 0 1; Sample.day 86400 99; Sample.day 172800 1 ].

End Home.

(** * Properties *)

(** ** Comprehensions *)

(** The first element a filtering comprehension keeps is the first item of
    the table that passes the test: a linear scan. *)
Lemma first_select {K V} (p : V -> bool) (items : list (K * V)) :
  (ks <~ select (fun v => Ok (p v)) items ;; first ks) =
  match List.find (fun kv => p (snd kv)) items with
  | Some kv => Ok (fst kv)
  | None => Raise IndexError
  end.
Proof.
  induction items as [|[k v] rest IH]; [reflexivity|].
  cbn [select rbind List.find snd fst].
  destruct (select (fun v0 => Ok (p v0)) rest) as [ks|e] eqn:Es.
  - cbn [rbind] in *. destruct (p v); [reflexivity | exact IH].
  - cbn [rbind] in *. destruct (p v); [|exact IH].
    exfalso. clear -Es. revert e Es.
    induction rest as [|[k' v'] rest IH]; intros e Es; [discriminate|].
    cbn [select rbind] in Es.
    destruct (select (fun v0 => Ok (p v0)) rest) as [ks'|e'] eqn:E'; [discriminate|].
    eapply IH; reflexivity.
Qed.

Lemma select_total {K V} (p : V -> bool) (items : list (K * V)) :
  exists ks, select (fun v => Ok (p v)) items = Ok ks.
Proof.
  induction items as [|[k v] rest [ks IH]]; [eexists; reflexivity|].
  cbn [select rbind]. rewrite IH. eexists; reflexivity.
Qed.

Lemma select_Raise {K V} (e : exn) (items : list (K * V)) :
  items <> [] -> select (fun _ : V => Raise e) items = Raise e.
Proof. destruct items as [|[k v] rest]; [congruence | reflexivity]. Qed.

Lemma find_split {A} (p : A -> bool) (before after : list A) (x : A) :
  Forall (fun y => p y = false) before -> p x = true ->
  List.find p (before ++ x :: after)%list = Some x.
Proof.
  intros Hb Hx. induction Hb as [|y before Hy _ IH]; cbn; [rewrite Hx | rewrite Hy]; auto.
Qed.

Lemma find_none {A} (p : A -> bool) (l : list A) :
  Forall (fun y => p y = false) l -> List.find p l = None.
Proof. intros H. induction H as [|y l Hy _ IH]; cbn; [|rewrite Hy]; auto. Qed.

Lemma comprehension_Forall2 {A B} (f : A -> res B) (l : list A) (out : list B) :
  comprehension f l = Ok out <-> Forall2 (fun x y => f x = Ok y) l out.
Proof.
  revert out. induction l as [|x l IH]; intros out; cbn [comprehension].
  - split; [intros [= <-]; constructor | intros H; inversion H; reflexivity].
  - split.
    + destruct (f x) as [y|e] eqn:Ex; cbn [rbind]; [|discriminate].
      destruct (comprehension f l) as [ys|e] eqn:El; cbn [rbind]; [|discriminate].
      intros [= <-]. constructor; [exact Ex | apply IH; reflexivity].
    + intros H. inversion H as [|? y ? ys Hx Hl]; subst.
      rewrite Hx. cbn [rbind]. apply IH in Hl. rewrite Hl. reflexivity.
Qed.

(** ** The calendar and the ISO-8601 string *)

Section Calendar.

Import dt.

Lemma all_below_from n p : forall i,
  N.iter n (fun k i => p i && k (i + 1)) (fun _ => true) i = true ->
  forall j, i <= j < i + Z.of_N n -> p j = true.
Proof.
  induction n as [|n IH] using N.peano_ind; intros i H j Hj; [lia|].
  rewrite N.iter_succ in H. apply andb_true_iff in H as [Hi H].
  destruct (Z.eq_dec j i) as [->|Hne]; [exact Hi|].
  apply (IH (i + 1) H). lia.
Qed.

Lemma all_below_spec n p : all_below n p = true -> forall j, 0 <= j < Z.of_N n -> p j = true.
Proof. intros H j Hj. apply (all_below_from n p 0 H). lia. Qed.

Lemma month_day_checked :
  all_below 365 (month_day_check false) = true /\ all_below 366 (month_day_check true) = true.
Proof. split; vm_compute; reflexivity. Qed.

Lemma month_day_ok (leap : bool) (n : Z) :
  0 <= n < 365 + (if leap then 1 else 0) ->
  let '(m, d) := month_day leap n in
  1 <= m <= 12 /\ 1 <= d <= days_in_month leap m /\ days_before_month leap m + d = n + 1.
Proof.
  intros Hn.
  assert (H : month_day_check leap n = true).
  { destruct month_day_checked as [H0 H1].
    destruct leap; [apply (all_below_spec _ _ H1) | apply (all_below_spec _ _ H0)]; lia. }
  unfold month_day_check in H. destruct (month_day leap n) as [m d].
  repeat (apply andb_true_iff in H as [H ?]). lia.
Qed.

Lemma ord2ymd_ok (n : Z) :
  1 <= n ->
  let '(y, m, d) := ord2ymd n in
  1 <= y /\ 1 <= m <= 12 /\ 1 <= d <= days_in_month (is_leap y) m /\ ymd2ord y m d = n.
Proof.
  intros Hn. unfold ord2ymd.
  set (n0 := n - 1).
  set (n400 := n0 / 146097). set (r1 := n0 mod 146097).
  set (n100 := r1 / 36524). set (r2 := r1 mod 36524).
  set (n4 := r2 / 1461). set (r3 := r2 mod 1461).
  set (n1 := r3 / 365). set (r4 := r3 mod 365).
  assert (E1 : n0 = 146097 * n400 + r1 /\ 0 <= r1 < 146097) by (subst n400 r1; split; [apply Z.div_mod; lia | apply Z.mod_pos_bound; lia]).
  assert (E2 : r1 = 36524 * n100 + r2 /\ 0 <= r2 < 36524) by (subst n100 r2; split; [apply Z.div_mod; lia | apply Z.mod_pos_bound; lia]).
  assert (E3 : r2 = 1461 * n4 + r3 /\ 0 <= r3 < 1461) by (subst n4 r3; split; [apply Z.div_mod; lia | apply Z.mod_pos_bound; lia]).
  assert (E4 : r3 = 365 * n1 + r4 /\ 0 <= r4 < 365) by (subst n1 r4; split; [apply Z.div_mod; lia | apply Z.mod_pos_bound; lia]).
  assert (B0 : 0 <= n400) by (subst n400; apply Z.div_pos; lia).
  assert (B1 : 0 <= n100 <= 4) by lia.
  assert (B2 : 0 <= n4 <= 24) by lia.
  assert (B3 : 0 <= n1 <= 4) by lia.
  clearbody n400 r1 n100 r2 n4 r3 n1 r4.
  set (Y := n400 * 400 + 1 + n100 * 100 + n4 * 4 + n1).
  destruct ((n1 =? 4) || (n100 =? 4)) eqn:Hlast.
  - (* the last day of a leap year *)
    assert (Hr : r4 = 0 /\ ((n1 = 4 /\ n4 <= 23 /\ n100 <= 3) \/ (n100 = 4 /\ n4 = 0 /\ n1 = 0))) by lia.
    assert (HL : is_leap (Y - 1) = true).
    { unfold is_leap. subst Y. apply andb_true_iff. rewrite orb_true_iff, negb_true_iff.
      rewrite !Z.eqb_eq, Z.eqb_neq. Z.div_mod_to_equations. lia. }
    rewrite HL. unfold ymd2ord, days_before_year. rewrite HL.
    change (days_in_month true 12) with 31. change (days_before_month true 12) with 335.
    subst Y. Z.div_mod_to_equations. lia.
  - assert (Hr : n1 <= 3 /\ n100 <= 3) by lia.
    set (L := (n1 =? 3) && (negb (n4 =? 24) || (n100 =? 3))).
    assert (HL : is_leap Y = L).
    { unfold is_leap. subst Y L. apply eq_true_iff_eq.
      rewrite !andb_true_iff, !orb_true_iff, !negb_true_iff, !Z.eqb_eq, !Z.eqb_neq.
      Z.div_mod_to_equations. lia. }
    pose proof (month_day_ok L r4) as Hmd.
    destruct (month_day L r4) as [m d].
    destruct Hmd as (Hm & Hd & Hsum); [destruct L; lia|].
    rewrite HL. unfold ymd2ord, days_before_year. rewrite HL.
    repeat split; try lia.
    subst Y. Z.div_mod_to_equations. lia.
Qed.

Lemma digit_value_digit (k : Z) : 0 <= k <= 9 -> digit_value (digit k) = Some k.
Proof.
  intros Hk.
  assert (H : k = 0 \/ k = 1 \/ k = 2 \/ k = 3 \/ k = 4 \/ k = 5 \/ k = 6 \/ k = 7 \/ k = 8 \/ k = 9) by lia.
  repeat (destruct H as [-> | H]; [reflexivity|]). subst k. reflexivity.
Qed.

Lemma number_decimal2 (n : Z) :
  0 <= n < 100 ->
  exists a b, decimal 2 n = String a (String b "") /\ number 0 [a; b] = Some n.
Proof.
  intros Hn. exists (digit (n / 10 mod 10)), (digit (n mod 10)). split; [reflexivity|].
  cbn [number]. rewrite !digit_value_digit by (Z.div_mod_to_equations; lia).
  f_equal. Z.div_mod_to_equations. lia.
Qed.

Lemma number_decimal4 (n : Z) :
  0 <= n < 10000 ->
  exists a b c d, decimal 4 n = String a (String b (String c (String d ""))) /\
                  number 0 [a; b; c; d] = Some n.
Proof.
  intros Hn.
  exists (digit (n / 10 / 10 / 10 mod 10)), (digit (n / 10 / 10 mod 10)),
         (digit (n / 10 mod 10)), (digit (n mod 10)). split; [reflexivity|].
  cbn [number]. rewrite !digit_value_digit by (Z.div_mod_to_equations; lia).
  f_equal. Z.div_mod_to_equations. lia.
Qed.

Lemma days_before_month_nonneg (leap : bool) (m : Z) : 1 <= m <= 12 -> 0 <= days_before_month leap m.
Proof.
  intros Hm.
  assert (H : m = 1 \/ m = 2 \/ m = 3 \/ m = 4 \/ m = 5 \/ m = 6 \/ m = 7 \/ m = 8 \/ m = 9 \/ m = 10 \/ m = 11 \/ m = 12) by lia.
  repeat (destruct H as [-> | H]; [destruct leap; cbv; discriminate|]). subst m. destruct leap; cbv; discriminate.
Qed.

Lemma days_in_month_le (leap : bool) (m : Z) : days_in_month leap m <= 31.
Proof.
  unfold days_in_month, table.
  assert (H : forall k, nth k DAYS_IN_MONTH 0 <= 31).
  { intros k. do 12 (destruct k as [|k]; [cbv; discriminate|]). destruct k; cbv; discriminate. }
  specialize (H (Z.to_nat (m - 1))).
  destruct ((m =? 2) && leap) eqn:E; [|lia].
  apply andb_true_iff in E as [E _]. apply Z.eqb_eq in E. subst m. cbv. discriminate.
Qed.

(** The fields an in-range whole second is split into. *)
Lemma from_microseconds_whole (t : Z) :
  MIN_TIMESTAMP <= t <= MAX_TIMESTAMP ->
  exists d,
    from_microseconds (t * 1000000) = Ok d /\ microsecond d = 0 /\
    valid_fields (year d, month d, day d, hour d, minute d, second d) /\
    timestamp_of_fields (year d, month d, day d, hour d, minute d, second d) = t.
Proof.
  intros Ht. unfold from_microseconds.
  rewrite Z.div_mul, Z.mod_mul by lia.
  assert (Hr : (t <? MIN_TIMESTAMP) || (MAX_TIMESTAMP <? t) = false).
  { apply orb_false_iff. split; apply Z.ltb_ge; lia. }
  rewrite Hr. unfold MIN_TIMESTAMP, MAX_TIMESTAMP, EPOCH_ORDINAL in *.
  pose proof (ord2ymd_ok (t / 86400 + 719163)) as Hord.
  destruct (ord2ymd (t / 86400 + 719163)) as [[y m] d].
  destruct Hord as (Hy & Hm & Hd & Hord); [Z.div_mod_to_equations; lia|].
  eexists. split; [reflexivity|]. cbn [year month day hour minute second microsecond].
  split; [reflexivity|].
  pose proof (days_before_month_nonneg (is_leap y) m Hm) as Hb.
  unfold valid_fields, timestamp_of_fields. rewrite Hord. unfold EPOCH_ORDINAL.
  unfold ymd2ord, days_before_year in Hord.
  repeat split; try lia; try (Z.div_mod_to_equations; lia).
Qed.

Lemma fields_of_isoformat (d : datetime) :
  microsecond d = 0 ->
  0 <= year d < 10000 -> 0 <= month d < 100 -> 0 <= day d < 100 ->
  0 <= hour d < 100 -> 0 <= minute d < 100 -> 0 <= second d < 100 ->
  fields_of_iso (isoformat d) = Some (year d, month d, day d, hour d, minute d, second d).
Proof.
  intros Hus Hy Hm Hd Hh Hn Hs. unfold isoformat. rewrite Hus.
  destruct (number_decimal4 _ Hy) as (y1 & y2 & y3 & y4 & -> & Ey).
  destruct (number_decimal2 _ Hm) as (m1 & m2 & -> & Em).
  destruct (number_decimal2 _ Hd) as (d1 & d2 & -> & Ed).
  destruct (number_decimal2 _ Hh) as (h1 & h2 & -> & Eh).
  destruct (number_decimal2 _ Hn) as (n1 & n2 & -> & En).
  destruct (number_decimal2 _ Hs) as (s1 & s2 & -> & Es).
  unfold fields_of_iso. cbv -[number].
  rewrite Ey, Em, Ed, Eh, En, Es. reflexivity.
Qed.

(** An in-range whole second is written as the ISO-8601 string of that
    second in UTC. *)
Lemma isoformat_utc_from_timestamp (t : Z) :
  MIN_TIMESTAMP <= t <= MAX_TIMESTAMP ->
  exists d f,
    utc_from_timestamp (VInt t) = Ok d /\
    fields_of_iso (isoformat d) = Some f /\ valid_fields f /\ timestamp_of_fields f = t.
Proof.
  intros Ht. destruct (from_microseconds_whole t Ht) as (d & Hd & Hus & Hv & Hts).
  exists d, (year d, month d, day d, hour d, minute d, second d).
  split; [exact Hd|]. split; [|split; assumption].
  destruct Hv as (Hy & Hm & Hday & Hh & Hn & Hs).
  pose proof (days_in_month_le (is_leap (year d)) (month d)).
  apply fields_of_isoformat; lia.
Qed.

End Calendar.

(** ** Properties of the entity *)

Section Properties.

Import AccuWeatherEntity.

Variable K : const.t.

Implicit Types (self : AccuWeatherEntity.t) (icon v : pyval).

(** What [classes_of] gives once the icon's lookup has a value. *)
Lemma first_classes_of (icon : pyval) :
  (ks <~ classes_of K (Ok icon) ;; first ks) =
  match List.find (fun kv => contains icon (snd kv)) (const.CONDITION_CLASSES K) with
  | Some kv => Ok (fst kv)
  | None => Raise IndexError
  end.
Proof. unfold classes_of. cbn [rbind]. apply first_select. Qed.

Lemma condition_find self icon :
  getitem (Coordinator.data (coordinator self)) "WeatherIcon" = Ok icon ->
  condition K self =
  (Ok (fst <$> List.find (fun kv => contains icon (snd kv)) (const.CONDITION_CLASSES K)), self).
Proof.
  intros Hicon. pose proof (first_classes_of icon) as Hf.
  unfold condition, try_except_IndexError, bind, reads, ret, data, subscript.
  cbn [rbind]. rewrite Hicon.
  destruct (classes_of K (Ok icon)) as [ks|e] eqn:Ec.
  - cbn [rbind] in Hf. rewrite Hf.
    destruct (List.find _ _) as [kv|]; reflexivity.
  - exfalso. unfold classes_of in Ec. cbn [rbind] in Ec.
    destruct (select_total (contains icon) (const.CONDITION_CLASSES K)) as [ks Hks].
    congruence.
Qed.

(** C3.  When the snapshot has an icon under ["WeatherIcon"], [condition]
    returns the name of the first entry of [CONDITION_CLASSES], in the order
    of the table, whose codes contain the icon: an entry after which the icon
    is listed again does not count.  When no entry contains the icon it
    returns [None]; it does not raise.  Either way the entity is left as it
    was. *)
Theorem condition_first_match self icon :
  getitem (Coordinator.data (coordinator self)) "WeatherIcon" = Ok icon ->
  (forall (before after : list (string * list Z)) (name : string) (codes : list Z),
      const.CONDITION_CLASSES K = (before ++ (name, codes) :: after)%list ->
      Forall (fun kv => contains icon (snd kv) = false) before ->
      contains icon codes = true ->
      condition K self = (Ok (Some name), self)) /\
  (Forall (fun kv => contains icon (snd kv) = false) (const.CONDITION_CLASSES K) ->
   condition K self = (Ok None, self)).
Proof.
  intros Hicon. rewrite (condition_find self icon Hicon). split.
  - intros before after name codes -> Hb Hc.
    rewrite (find_split (fun kv => contains icon (snd kv)) before after (name, codes) Hb Hc).
    reflexivity.
  - intros Hall. rewrite (find_none _ _ Hall). reflexivity.
Qed.

(** *** Reading a scalar along a path *)

(** C7.  [native_temperature] returns the value found under
    ["Temperature"], then the unit selector [API_METRIC], then ["Value"], as it
    is: whatever that value is, it is neither converted nor checked.  (The
    spec names the selector ["Metric"]; the theorem holds for any binding of
    the constant.) *)
Theorem native_temperature_value self (temperature metric v : pyval) :
  getitem (Coordinator.data (coordinator self)) "Temperature" = Ok temperature ->
  getitem temperature (const.API_METRIC K) = Ok metric ->
  getitem metric "Value" = Ok v ->
  native_temperature K self = (Ok v, self).
Proof.
  intros H1 H2 H3. unfold native_temperature, reads, data, subscript.
  cbn [rbind]. rewrite H1. cbn [rbind]. rewrite H2. cbn [rbind]. rewrite H3. reflexivity.
Qed.

Lemma getpath_Raise (e : exn) (p : list string) : fold_left subscript p (Raise e) = Raise e.
Proof. induction p as [|k p IH]; [reflexivity | exact IH]. Qed.

Lemma getpath_cons (v : pyval) (k : string) (p : list string) :
  getpath v (k :: p) = (x <~ getitem v k ;; getpath x p).
Proof.
  unfold getpath. cbn [fold_left subscript rbind].
  destruct (getitem v k); [reflexivity | apply getpath_Raise].
Qed.

(** A path that cannot be followed makes the lookup fail, and only such a
    path does. *)
Lemma getpath_broken (v : pyval) (p : list string) :
  broken v p <-> exists e, getpath v p = Raise e /\ lookup_failure e.
Proof.
  split.
  - intros H. induction H as [v k p Hv | d k p Hk | d k x p Hk Hx IH];
      rewrite getpath_cons.
    + exists TypeError. split; [|left; reflexivity].
      destruct v; try reflexivity. exfalso. eapply Hv. reflexivity.
    + exists (KeyError k). cbn [getitem]. rewrite Hk. split; [reflexivity | right; eauto].
    + cbn [getitem]. rewrite Hk. exact IH.
  - revert v. induction p as [|k p IH]; intros v (e & He & Hf); [discriminate|].
    rewrite getpath_cons in He.
    destruct v; try (apply broken_type; discriminate).
    cbn [getitem] in He. destruct (d !! k) as [x|] eqn:Hk.
    + apply broken_deeper with x; [exact Hk|]. apply IH. exists e. split; assumption.
    + apply broken_missing. exact Hk.
Qed.

Lemma getpath_Raise_lookup (v : pyval) (p : list string) (e : exn) :
  getpath v p = Raise e -> lookup_failure e.
Proof.
  revert v. induction p as [|k p IH]; intros v; [discriminate|].
  rewrite getpath_cons. destruct v; cbn [getitem rbind]; try (intros [= <-]; left; reflexivity).
  destruct (d !! k) as [x|]; cbn [rbind]; [apply IH|].
  intros [= <-]. right. eauto.
Qed.

Lemma getpath_sound (v : pyval) (p : list string) :
  ~ broken v p -> is_Ok (getpath v p).
Proof.
  intros Hb. destruct (getpath v p) as [x|e] eqn:E; [exists x; reflexivity|].
  exfalso. apply Hb. apply getpath_broken. exists e. split; [exact E|].
  eapply getpath_Raise_lookup. exact E.
Qed.

Lemma reads_getpath_fails self (p : list string) :
  broken (Coordinator.data (coordinator self)) p ->
  fails_lookup (reads (fun self => getpath (Coordinator.data (coordinator self)) p)) self.
Proof.
  intros Hb. apply getpath_broken in Hb as (e & He & Hf).
  exists e. unfold reads. rewrite He. split; [reflexivity | exact Hf].
Qed.

Lemma condition_fails self :
  const.CONDITION_CLASSES K <> [] ->
  broken (Coordinator.data (coordinator self)) ["WeatherIcon"] ->
  fails_lookup (condition K) self.
Proof.
  intros Hne Hb. apply getpath_broken in Hb as (e & He & Hf).
  exists e. split; [|exact Hf].
  unfold condition, try_except_IndexError, bind, reads, ret, data.
  change ((Ok (Coordinator.data (coordinator self))).["WeatherIcon"])
    with (getpath (Coordinator.data (coordinator self)) ["WeatherIcon"]).
  rewrite He. unfold classes_of. cbn [rbind]. rewrite select_Raise by exact Hne.
  destruct Hf as [-> | [k ->]]; reflexivity.
Qed.

(** C5.  When the path a property reads is broken in the snapshot (a key
    on it is missing, or what it should lead through is not a mapping), the
    property raises a [KeyError] or a [TypeError]: this holds for the
    temperature, the pressure, the humidity, the wind speed, the wind bearing
    and the visibility, and for [condition] when ["WeatherIcon"] cannot be
    read.  [condition] looks the icon up once per entry of
    [CONDITION_CLASSES], hence the table must have an entry for the lookup to
    happen at all. *)
Theorem shape_mismatch_surfaces self :
  let snapshot := Coordinator.data (coordinator self) in
  let metric := const.API_METRIC K in
  (broken snapshot ["Temperature"; metric; "Value"] -> fails_lookup (native_temperature K) self) /\
  (broken snapshot ["Pressure"; metric; "Value"] -> fails_lookup (native_pressure K) self) /\
  (broken snapshot ["RelativeHumidity"] -> fails_lookup humidity self) /\
  (broken snapshot ["Wind"; "Speed"; metric; "Value"] -> fails_lookup (native_wind_speed K) self) /\
  (broken snapshot ["Wind"; "Direction"; "Degrees"] -> fails_lookup wind_bearing self) /\
  (broken snapshot ["Visibility"; metric; "Value"] -> fails_lookup (native_visibility K) self) /\
  (const.CONDITION_CLASSES K <> [] ->
   broken snapshot ["WeatherIcon"] -> fails_lookup (condition K) self).
Proof.
  cbv zeta. repeat split; try (intros Hb; exact (reads_getpath_fails self _ Hb)).
  apply condition_fails.
Qed.

(** *** Reads leave the entity as it is *)

Lemma read_only_ret {A} (a : A) : read_only (ret a : M t A).
Proof. intros s. reflexivity. Qed.

Lemma read_only_reads {A} (f : t -> res A) : read_only (reads f).
Proof. intros s. reflexivity. Qed.

Lemma read_only_bind {A B} (m : M t A) (k : A -> M t B) :
  read_only m -> (forall a, read_only (k a)) -> read_only (bind m k).
Proof.
  intros Hm Hk s. unfold bind. specialize (Hm s).
  destruct (m s) as [[a|e] s']; cbn [snd] in *; subst s'; [apply Hk | reflexivity].
Qed.

Lemma read_only_try {A} (body handler : M t A) :
  read_only body -> read_only handler -> read_only (try_except_IndexError body handler).
Proof.
  intros Hb Hh s. unfold try_except_IndexError. specialize (Hb s).
  destruct (body s) as [[a|e] s']; cbn [snd] in *; subst s'; [reflexivity|].
  destruct e; try reflexivity. apply Hh.
Qed.

Lemma forecast_read_only : read_only (forecast K).
Proof.
  unfold forecast. apply read_only_bind; [apply read_only_reads|].
  intros enabled. destruct (negb enabled); [apply read_only_ret|].
  apply read_only_bind; [apply read_only_reads|]. intros items.
  apply read_only_bind; [apply read_only_reads|]. intros entries.
  apply read_only_ret.
Qed.

(** C8.  Two calls of [forecast] in a row on the same entity give the same
    result, and the entity (its coordinator and the coordinator's data
    included) is after each call what it was before. *)
Theorem forecast_idempotent self :
  let '(first_result, after_first) := forecast K self in
  let '(second_result, after_second) := forecast K after_first in
  second_result = first_result /\ after_first = self /\ after_second = self.
Proof.
  pose proof (forecast_read_only self) as H1.
  destruct (forecast K self) as [r1 s1] eqn:E1. cbn [snd] in H1. subst s1.
  rewrite E1. auto.
Qed.

(** *** The forecast *)

Lemma find_Exists {A} (p : A -> bool) (l : list A) :
  Exists (fun x => p x = true) l <-> exists x, List.find p l = Some x.
Proof.
  split.
  - intros H. induction H as [x l Hx | x l _ IH]; cbn.
    + rewrite Hx. eexists; reflexivity.
    + destruct (p x); [eexists; reflexivity | exact IH].
  - intros [x Hx]. apply find_some in Hx as [Hin Hp].
    apply List.Exists_exists. exists x. split; assumption.
Qed.

Lemma condition_of_item (r : res pyval) :
  is_Ok (ks <~ classes_of K r ;; first ks) <->
  exists icon, r = Ok icon /\
    Exists (fun kv => contains icon (snd kv) = true) (const.CONDITION_CLASSES K).
Proof.
  destruct r as [icon|e].
  - rewrite first_classes_of. split.
    + intros [k Hk]. exists icon. split; [reflexivity|].
      apply (find_Exists (fun kv => contains icon (snd kv))).
      destruct (List.find _ _) as [kv|]; [exists kv; reflexivity | discriminate].
    + intros (icon' & [= <-] & Hex).
      apply (find_Exists (fun kv => contains icon (snd kv))) in Hex as [kv Hkv].
      rewrite Hkv. eexists; reflexivity.
  - split; [|intros (icon & [=] & _)].
    intros [k Hk]. exfalso. unfold classes_of in Hk. cbn [rbind] in Hk.
    destruct (const.CONDITION_CLASSES K) as [|[k' v'] rest]; discriminate.
Qed.

(** An entry is built exactly from a complete item. *)
Lemma forecast_entry_complete (item : pyval) :
  complete K item <-> is_Ok (forecast_entry K item).
Proof.
  unfold complete, forecast_entry. rewrite <- condition_of_item.
  destruct ((Ok item).["EpochDate"]) as [ts|e]; cbn [rbind];
    [destruct (dt.utc_from_timestamp ts) as [d|e]; cbn [rbind]|];
    try solve [split; [intros ([? [=]] & _) | intros [? [=]]]].
  destruct ((Ok item).["TemperatureMax"].["Value"]) as [v1|e]; cbn [rbind];
    try solve [split; [intros (_ & [? [=]] & _) | intros [? [=]]]].
  destruct ((Ok item).["TemperatureMin"].["Value"]) as [v2|e]; cbn [rbind];
    try solve [split; [intros (_ & _ & [? [=]] & _) | intros [? [=]]]].
  destruct ((Ok item).["TotalLiquidDay"].["Value"]) as [v3|e]; cbn [rbind];
    try solve [split; [intros (_ & _ & _ & [? [=]] & _) | intros [? [=]]]].
  destruct ((Ok item).["PrecipitationProbabilityDay"]) as [v4|e]; cbn [rbind];
    try solve [split; [intros (_ & _ & _ & _ & [? [=]] & _) | intros [? [=]]]].
  destruct ((Ok item).["WindDay"].["Speed"].["Value"]) as [v5|e]; cbn [rbind];
    try solve [split; [intros (_ & _ & _ & _ & _ & [? [=]] & _) | intros [? [=]]]].
  destruct ((Ok item).["WindDay"].["Direction"].["Degrees"]) as [v6|e]; cbn [rbind];
    try solve [split; [intros (_ & _ & _ & _ & _ & _ & [? [=]] & _) | intros [? [=]]]].
  destruct (ks <~ classes_of K (Ok item).["IconDay"] ;; first ks) as [c|e]; cbn [rbind].
  - split; intros _; [eexists; reflexivity|].
    repeat split; eexists; reflexivity.
  - split; [intros (_ & _ & _ & _ & _ & _ & _ & [? [=]]) | intros [? [=]]].
Qed.

Lemma comprehension_complete (items : list pyval) :
  Forall (complete K) items -> is_Ok (comprehension (forecast_entry K) items).
Proof.
  intros H. induction H as [|item items Hi _ [entries IH]]; [eexists; reflexivity|].
  apply forecast_entry_complete in Hi as [e He].
  cbn [comprehension]. rewrite He, IH. eexists; reflexivity.
Qed.

(** With the coordinator's [forecast] attribute false, no forecast. *)
Lemma forecast_disabled self :
  truthy (Coordinator.forecast (coordinator self)) = false ->
  forecast K self = (Ok None, self).
Proof. intros H. unfold forecast, bind, reads, ret. rewrite H. reflexivity. Qed.

(** With it true, the entries are built from the list under the forecast
    key of [coordinator.data]. *)
Lemma forecast_enabled self :
  truthy (Coordinator.forecast (coordinator self)) = true ->
  forecast K self =
  ((v <~ getitem (Coordinator.data (coordinator self)) (const.ATTR_FORECAST K) ;;
    items <~ iter v ;;
    entries <~ comprehension (forecast_entry K) items ;;
    Ok (Some entries)), self).
Proof.
  intros H. unfold forecast, bind, reads, ret, data, subscript. rewrite H.
  cbn [negb rbind].
  destruct (getitem _ _) as [v|e]; cbn [rbind]; [|reflexivity].
  destruct (iter v) as [items|e]; cbn [rbind]; [|reflexivity].
  destruct (comprehension _ _); reflexivity.
Qed.

Lemma forecast_of_list self (items : list pyval) :
  truthy (Coordinator.forecast (coordinator self)) = true ->
  getitem (Coordinator.data (coordinator self)) (const.ATTR_FORECAST K) = Ok (VList items) ->
  forall entries,
    forecast K self = (Ok (Some entries), self) <->
    Forall2 (fun item entry => forecast_entry K item = Ok entry) items entries.
Proof.
  intros Hf Hd entries. rewrite (forecast_enabled self Hf), Hd. cbn [rbind iter].
  rewrite <- comprehension_Forall2.
  destruct (comprehension (forecast_entry K) items) as [es|e]; cbn [rbind].
  - split; [intros [= ->] | intros [= ->]]; reflexivity.
  - split; intros [=].
Qed.

(** C4.  With the coordinator's [forecast] attribute true and a list under
    the forecast key of its data, a sequence that [forecast] returns has the
    length of that list, and its entries are, position by position, the
    entries built from the list's items; [forecast] does return a sequence
    when every item is complete. *)
Theorem forecast_length_order self (items : list pyval) :
  truthy (Coordinator.forecast (coordinator self)) = true ->
  getitem (Coordinator.data (coordinator self)) (const.ATTR_FORECAST K) = Ok (VList items) ->
  (forall entries,
      forecast K self = (Ok (Some entries), self) ->
      length entries = length items /\
      Forall2 (fun item entry => forecast_entry K item = Ok entry) items entries) /\
  (Forall (complete K) items ->
   exists entries, forecast K self = (Ok (Some entries), self)).
Proof.
  intros Hf Hd. split.
  - intros entries He. apply (forecast_of_list self items Hf Hd) in He.
    split; [symmetry; eapply Forall2_length; exact He | exact He].
  - intros Hc. destruct (comprehension_complete items Hc) as [entries He].
    exists entries. apply (forecast_of_list self items Hf Hd).
    apply comprehension_Forall2. exact He.
Qed.

(** C10.  Whether there is a forecast is decided by the truth of the
    coordinator's [forecast] attribute; what it is made of is the list under
    the forecast key of [coordinator.data].  With the attribute true: if the
    data has no forecast key the call raises [KeyError]; if the data has a
    list there, a returned sequence has the length of that list, and one is
    returned when every item is complete. *)
Theorem forecast_gate_and_source self :
  truthy (Coordinator.forecast (coordinator self)) = true ->
  (forall d, Coordinator.data (coordinator self) = VDict d ->
             d !! const.ATTR_FORECAST K = None ->
             forecast K self = (Raise (KeyError (const.ATTR_FORECAST K)), self)) /\
  (forall items,
      getitem (Coordinator.data (coordinator self)) (const.ATTR_FORECAST K) = Ok (VList items) ->
      (forall entries, forecast K self = (Ok (Some entries), self) ->
                       length entries = length items) /\
      (Forall (complete K) items ->
       exists entries, forecast K self = (Ok (Some entries), self) /\
                       length entries = length items)).
Proof.
  intros Hf. split.
  - intros d Hd Hk. rewrite (forecast_enabled self Hf), Hd. cbn [getitem].
    rewrite Hk. reflexivity.
  - intros items Hd.
    assert (Hlen : forall entries, forecast K self = (Ok (Some entries), self) ->
                                   length entries = length items).
    { intros entries He. apply (forecast_of_list self items Hf Hd) in He.
      symmetry. eapply Forall2_length. exact He. }
    split; [exact Hlen|].
    intros Hc. destruct (comprehension_complete items Hc) as [entries He].
    assert (Hr : forecast K self = (Ok (Some entries), self)).
    { apply (forecast_of_list self items Hf Hd). apply comprehension_Forall2. exact He. }
    exists entries. split; [exact Hr | apply Hlen; exact Hr].
Qed.

(** C1, amended.  [forecast] returns [None] exactly when the coordinator's
    [forecast] attribute is false, whatever the data holds; with the attribute
    true and an empty list under the forecast key of the data, it returns the
    empty sequence. *)
Theorem forecast_absent_iff_disabled self :
  (fst (forecast K self) = Ok None <->
   truthy (Coordinator.forecast (coordinator self)) = false) /\
  (truthy (Coordinator.forecast (coordinator self)) = true ->
   getitem (Coordinator.data (coordinator self)) (const.ATTR_FORECAST K) = Ok (VList []) ->
   forecast K self = (Ok (Some []), self)).
Proof.
  split.
  - destruct (truthy (Coordinator.forecast (coordinator self))) eqn:Hf.
    + rewrite (forecast_enabled self Hf). cbn [fst]. split; [|discriminate].
      destruct (getitem _ _) as [v|e]; cbn [rbind]; [|discriminate].
      destruct (iter v) as [items|e]; cbn [rbind]; [|discriminate].
      destruct (comprehension _ _); cbn [rbind]; discriminate.
    + rewrite (forecast_disabled self Hf). split; reflexivity.
  - intros Hf Hd. rewrite (forecast_enabled self Hf), Hd. reflexivity.
Qed.

(** C9.  An entity built by [__init__] holds the coordinator it was given
    and has that coordinator's location key as its unique identifier; two
    coordinators with different location keys give entities with different
    identifiers. *)
Theorem unique_id_is_location_key :
  (forall c, coordinator (__init__ K c) = c /\
             _attr_unique_id (__init__ K c) = Coordinator.location_key c) /\
  (forall c1 c2,
      Coordinator.location_key c1 <> Coordinator.location_key c2 ->
      _attr_unique_id (__init__ K c1) <> _attr_unique_id (__init__ K c2)).
Proof. split; [intros c; split; reflexivity | intros c1 c2 H; exact H]. Qed.

(** The time of an entry is the item's timestamp, converted and written out. *)
Lemma forecast_entry_time (item : pyval) (entry : Forecast) :
  forecast_entry K item = Ok entry ->
  exists ts d,
    getitem item "EpochDate" = Ok ts /\ dt.utc_from_timestamp ts = Ok d /\
    ATTR_FORECAST_TIME entry = dt.isoformat d.
Proof.
  unfold forecast_entry. unfold subscript at 1. cbn [rbind].
  destruct (getitem item "EpochDate") as [ts|e]; cbn [rbind]; [|discriminate].
  destruct (dt.utc_from_timestamp ts) as [d|e] eqn:Hd; cbn [rbind]; [|discriminate].
  intros H. exists ts, d. split; [reflexivity|]. split; [exact Hd|].
  repeat match type of H with
         | rbind ?r _ = Ok _ => destruct r; cbn [rbind] in H; [|discriminate]
         end.
  injection H as <-. reflexivity.
Qed.

(** C6.  For an item whose ["EpochDate"] is a whole number of seconds that a
    [datetime] can hold, the time of the entry built from it is the ISO-8601
    string of that second in UTC: it reads back as a date of the calendar and
    a time of day that lie exactly that many seconds after 1970-01-01T00:00:00.
    For 0 it is ["1970-01-01T00:00:00+00:00"]. *)
Theorem forecast_time_iso_utc (item : pyval) (t : Z) (entry : Forecast) :
  getitem item "EpochDate" = Ok (VInt t) ->
  dt.MIN_TIMESTAMP <= t <= dt.MAX_TIMESTAMP ->
  forecast_entry K item = Ok entry ->
  (exists d f,
      dt.utc_from_timestamp (VInt t) = Ok d /\
      ATTR_FORECAST_TIME entry = dt.isoformat d /\
      dt.fields_of_iso (ATTR_FORECAST_TIME entry) = Some f /\
      dt.valid_fields f /\ dt.timestamp_of_fields f = t) /\
  (t = 0 -> ATTR_FORECAST_TIME entry = "1970-01-01T00:00:00+00:00").
Proof.
  intros Hts Ht He.
  destruct (forecast_entry_time item entry He) as (ts & d & Hts' & Hd & Htime).
  rewrite Hts in Hts'. injection Hts' as <-.
  destruct (isoformat_utc_from_timestamp t Ht) as (d' & f & Hd' & Hf & Hv & Hback).
  rewrite Hd in Hd'. injection Hd' as <-.
  split.
  - exists d, f. rewrite Htime. repeat split; assumption.
  - intros ->. rewrite Htime. vm_compute in Hd. injection Hd as <-. reflexivity.
Qed.

End Properties.

Import AccuWeatherEntity.

(** ** The theorems at sample data *)

(** Code 18 under ["rainy"] and, further down, under ["pouring"]: the first
    wins.  Code 99 under no name: no condition. *)
Lemma condition_first_match_witness :
  condition Sample.OVERLAPPING (Sample.entity (Sample.current (VInt 18) []) (VBool true)) =
    (Ok (Some "rainy"), Sample.entity (Sample.current (VInt 18) []) (VBool true)) /\
  condition Sample.OVERLAPPING (Sample.entity (Sample.current (VInt 99) []) (VBool true)) =
    (Ok None, Sample.entity (Sample.current (VInt 99) []) (VBool true)).
Proof.
  split.
  - apply (proj1 (condition_first_match Sample.OVERLAPPING
                    (Sample.entity (Sample.current (VInt 18) []) (VBool true)) (VInt 18) eq_refl)
             [("sunny", [1; 2; 5])] [("pouring", [18])] "rainy" [12; 18]).
    + reflexivity.
    + repeat constructor.
    + reflexivity.
  - apply (proj2 (condition_first_match Sample.OVERLAPPING
                    (Sample.entity (Sample.current (VInt 99) []) (VBool true)) (VInt 99) eq_refl)).
    repeat constructor.
Defined.

(** The snapshot [{"Temperature": {"Metric": {"Value": 21.5}}}]. *)
Lemma native_temperature_value_witness :
  let snapshot := VDict {[ "Temperature" := VDict {[ "Metric" := VDict {[ "Value" := VFloat 21.5%float ]} ]} ]} in
  native_temperature Sample.K (Sample.entity snapshot VNone) =
    (Ok (VFloat 21.5%float), Sample.entity snapshot VNone).
Proof.
  cbv zeta.
  apply (native_temperature_value Sample.K
           (Sample.entity (VDict {[ "Temperature" := VDict {[ "Metric" := VDict {[ "Value" := VFloat 21.5%float ]} ]} ]}) VNone)
           (VDict {[ "Metric" := VDict {[ "Value" := VFloat 21.5%float ]} ]})
           (VDict {[ "Value" := VFloat 21.5%float ]}) (VFloat 21.5%float));
    reflexivity.
Defined.

(** On the malformed payload every read fails: the temperature and the
    wind speed at a node of the wrong type, the others at a missing key. *)
Lemma shape_mismatch_surfaces_witness :
  let self := Sample.entity Sample.malformed (VBool true) in
  fails_lookup (native_temperature Sample.K) self /\
  fails_lookup (native_pressure Sample.K) self /\
  fails_lookup humidity self /\
  fails_lookup (native_wind_speed Sample.K) self /\
  fails_lookup wind_bearing self /\
  fails_lookup (native_visibility Sample.K) self /\
  fails_lookup (condition Sample.K) self.
Proof.
  cbv zeta.
  destruct (shape_mismatch_surfaces Sample.K (Sample.entity Sample.malformed (VBool true)))
    as (H1 & H2 & H3 & H4 & H5 & H6 & H7).
  repeat split.
  - apply H1. eapply broken_deeper; [reflexivity|]. apply broken_type. discriminate.
  - apply H2. apply broken_missing. reflexivity.
  - apply H3. apply broken_missing. reflexivity.
  - apply H4. eapply broken_deeper; [reflexivity|].
    eapply broken_deeper; [reflexivity|]. apply broken_type. discriminate.
  - apply H5. eapply broken_deeper; [reflexivity|]. apply broken_missing. reflexivity.
  - apply H6. apply broken_missing. reflexivity.
  - apply H7; [discriminate|]. apply broken_missing. reflexivity.
Defined.

(** Five days in, five entries out, in the same order. *)
Lemma forecast_length_order_witness :
  let self := Sample.entity (Sample.current (VInt 1) Sample.five_days) (VBool true) in
  forecast Sample.K self = (Ok (Some Sample.five_entries), self) /\
  length Sample.five_entries = length Sample.five_days /\
  Forall2 (fun item entry => forecast_entry Sample.K item = Ok entry)
          Sample.five_days Sample.five_entries.
Proof.
  cbv zeta.
  assert (H : forecast Sample.K (Sample.entity (Sample.current (VInt 1) Sample.five_days) (VBool true)) =
              (Ok (Some Sample.five_entries),
               Sample.entity (Sample.current (VInt 1) Sample.five_days) (VBool true)))
    by (vm_compute; reflexivity).
  split; [exact H|].
  exact (proj1 (forecast_length_order Sample.K
                  (Sample.entity (Sample.current (VInt 1) Sample.five_days) (VBool true))
                  Sample.five_days eq_refl eq_refl)
               Sample.five_entries H).
Defined.

(** A [forecast] attribute that is a list of three, data with one day: one
    entry.  The same attribute and data without the key: [KeyError]. *)
Lemma forecast_gate_and_source_witness :
  let flag := VList [VInt 1; VInt 2; VInt 3] in
  let self := Sample.entity (Sample.current (VInt 1) [Sample.day 0 1]) flag in
  let entries := [Sample.entry "1970-01-01T00:00:00+00:00" "sunny"] in
  forecast Sample.K self = (Ok (Some entries), self) /\
  length entries = length [Sample.day 0 1] /\
  forecast Sample.K (Sample.entity (VDict ∅) flag) =
    (Raise (KeyError "forecast"), Sample.entity (VDict ∅) flag).
Proof.
  cbv zeta.
  assert (H : forecast Sample.K
                (Sample.entity (Sample.current (VInt 1) [Sample.day 0 1])
                               (VList [VInt 1; VInt 2; VInt 3])) =
              (Ok (Some [Sample.entry "1970-01-01T00:00:00+00:00" "sunny"]),
               Sample.entity (Sample.current (VInt 1) [Sample.day 0 1])
                             (VList [VInt 1; VInt 2; VInt 3])))
    by (vm_compute; reflexivity).
  split; [exact H|]. split.
  - exact (proj1 (proj2 (forecast_gate_and_source Sample.K
                           (Sample.entity (Sample.current (VInt 1) [Sample.day 0 1])
                                          (VList [VInt 1; VInt 2; VInt 3])) eq_refl)
                        [Sample.day 0 1] eq_refl)
                 [Sample.entry "1970-01-01T00:00:00+00:00" "sunny"] H).
  - exact (proj1 (forecast_gate_and_source Sample.K
                    (Sample.entity (VDict ∅) (VList [VInt 1; VInt 2; VInt 3])) eq_refl)
                 ∅ eq_refl eq_refl).
Defined.

(** The attribute true and an empty forecast list: the empty sequence. *)
Lemma forecast_absent_iff_disabled_witness :
  forecast Sample.K (Sample.entity (Sample.current (VInt 1) []) (VBool true)) =
    (Ok (Some []), Sample.entity (Sample.current (VInt 1) []) (VBool true)).
Proof.
  exact (proj2 (forecast_absent_iff_disabled Sample.K
                  (Sample.entity (Sample.current (VInt 1) []) (VBool true)))
               eq_refl eq_refl).
Defined.

(** Two coordinators, two location keys, two identifiers. *)
Lemma unique_id_is_location_key_witness :
  _attr_unique_id (__init__ Sample.K (Sample.coordinator VNone VNone "0123456")) = "0123456" /\
  _attr_unique_id (__init__ Sample.K (Sample.coordinator VNone VNone "7654321")) = "7654321" /\
  _attr_unique_id (__init__ Sample.K (Sample.coordinator VNone VNone "0123456")) <>
  _attr_unique_id (__init__ Sample.K (Sample.coordinator VNone VNone "7654321")).
Proof.
  split; [reflexivity|]. split; [reflexivity|].
  apply (proj2 (unique_id_is_location_key Sample.K)). discriminate.
Defined.

(** The day whose timestamp is 0. *)
Lemma forecast_time_iso_utc_witness :
  forecast_entry Sample.K (Sample.day 0 1) = Ok (Sample.entry "1970-01-01T00:00:00+00:00" "sunny") /\
  dt.fields_of_iso "1970-01-01T00:00:00+00:00" = Some (1970, 1, 1, 0, 0, 0) /\
  dt.timestamp_of_fields (1970, 1, 1, 0, 0, 0) = 0.
Proof.
  assert (He : forecast_entry Sample.K (Sample.day 0 1) =
               Ok (Sample.entry "1970-01-01T00:00:00+00:00" "sunny")) by (vm_compute; reflexivity).
  split; [exact He|].
  destruct (forecast_time_iso_utc Sample.K (Sample.day 0 1) 0 _ eq_refl
              ltac:(unfold dt.MIN_TIMESTAMP, dt.MAX_TIMESTAMP; lia) He)
    as [(d & f & _ & _ & Hf & _ & Hback) _].
  cbn [ATTR_FORECAST_TIME Sample.entry] in Hf.
  assert (Ef : f = (1970, 1, 1, 0, 0, 0)).
  { vm_compute in Hf. injection Hf as <-. reflexivity. }
  subst f. split; [reflexivity | exact Hback].
Defined.

(** C1 as stated fails.  With the coordinator's [forecast] attribute false,
    a forecast list that is there and empty gives [None], not the empty
    sequence; with the attribute true, a snapshot without the forecast key
    gives a [KeyError], not [None]. *)
Lemma forecast_empty_list_absent :
  let off := Sample.entity (Sample.current (VInt 1) []) (VBool false) in
  let bare := Sample.entity (VDict ∅) (VBool true) in
  getitem (Coordinator.data (coordinator off)) (const.ATTR_FORECAST Sample.K) = Ok (VList []) /\
  fst (forecast Sample.K off) = Ok None /\
  fst (forecast Sample.K off) <> Ok (Some []) /\
  getitem (Coordinator.data (coordinator bare)) (const.ATTR_FORECAST Sample.K) =
    Raise (KeyError "forecast") /\
  fst (forecast Sample.K bare) <> Ok None.
Proof. cbv zeta. repeat split; try reflexivity; vm_compute; discriminate. Qed.

(** C2.  An icon that no condition lists: [condition] returns [None], but
    [forecast], which takes [[0]] of the same comprehension outside any
    [try], fails with its [IndexError]. *)
Lemma forecast_unknown_icon_raises :
  let self := Sample.entity (Sample.current (VInt 99) [Sample.day 0 99]) (VBool true) in
  fst (condition Sample.K self) = Ok None /\
  fst (forecast Sample.K self) = Raise IndexError.
Proof. cbv zeta. split; vm_compute; reflexivity. Qed.

(** The forecast of no day and of one day. *)
Example forecast_no_day :
  fst (forecast Sample.K (Sample.entity (Sample.current (VInt 1) []) (VBool true))) = Ok (Some []).
Proof. vm_compute. reflexivity. Qed.

Example forecast_one_day :
  fst (forecast Sample.K (Sample.entity (Sample.current (VInt 1) [Sample.day 86400 18]) (VBool true))) =
  Ok (Some [Sample.entry "1970-01-02T00:00:00+00:00" "pouring"]).
Proof. vm_compute. reflexivity. Qed.

(** * Further properties *)

Section Further.

Variable K : const.t.

Implicit Types (self : AccuWeatherEntity.t) (icon v : pyval).

(** ** The current condition *)

Lemma contains_VInt (c : Z) (codes : list Z) :
  contains (VInt c) codes = true <-> In c codes.
Proof.
  unfold contains. rewrite existsb_exists. split.
  - intros (z & Hin & Hz). cbn [eq_int] in Hz. apply Z.eqb_eq in Hz. subst z. exact Hin.
  - intros Hin. exists c. split; [exact Hin | apply Z.eqb_refl].
Qed.

Lemma contains_not_a_number icon (codes : list Z) :
  not_a_number icon -> contains icon codes = false.
Proof.
  intros Hn. unfold contains. induction codes as [|z codes IH]; [reflexivity|].
  cbn [existsb]. rewrite IH. destruct icon; try reflexivity; destruct Hn.
Qed.

(** X1.  When the icon is an integer code that the table lists under one
    name only (in however many entries of that name), [condition] returns
    that name, wherever in the table the name stands. *)
Theorem condition_unique_name self (c : Z) (name : string) (codes : list Z) :
  getitem (Coordinator.data (coordinator self)) "WeatherIcon" = Ok (VInt c) ->
  In (name, codes) (const.CONDITION_CLASSES K) ->
  In c codes ->
  (forall name' codes', In (name', codes') (const.CONDITION_CLASSES K) ->
                        In c codes' -> name' = name) ->
  condition K self = (Ok (Some name), self).
Proof.
  intros Hicon Hin Hc Huniq. rewrite (condition_find K self (VInt c) Hicon).
  destruct (List.find (fun kv => contains (VInt c) (snd kv)) (const.CONDITION_CLASSES K))
    as [[name' codes']|] eqn:Hfind.
  - apply find_some in Hfind as [Hin' Hc']. cbn [snd] in Hc'.
    apply contains_VInt in Hc'. rewrite (Huniq name' codes' Hin' Hc'). reflexivity.
  - exfalso. pose proof (List.find_none _ _ Hfind (name, codes) Hin) as Hno.
    cbn [snd] in Hno. apply contains_VInt in Hc. congruence.
Qed.

(** X2.  An icon that is [None], a string, a list or a mapping equals no
    code: [condition] returns [None] for it, whatever the table, and does not
    raise. *)
Theorem condition_not_a_number self icon :
  getitem (Coordinator.data (coordinator self)) "WeatherIcon" = Ok icon ->
  not_a_number icon ->
  condition K self = (Ok None, self).
Proof.
  intros Hicon Hn. rewrite (condition_find K self icon Hicon).
  rewrite find_none; [reflexivity|].
  apply Forall_forall. intros kv _. apply contains_not_a_number. exact Hn.
Qed.

(** X3.  With no entry in [CONDITION_CLASSES] the icon is never looked up:
    [condition] returns [None] on every snapshot, one without ["WeatherIcon"]
    or one that is no mapping included. *)
Theorem condition_empty_table self :
  const.CONDITION_CLASSES K = [] ->
  condition K self = (Ok None, self).
Proof.
  intros Hempty.
  unfold condition, try_except_IndexError, bind, reads, ret, classes_of.
  rewrite Hempty. reflexivity.
Qed.

(** X4.  [condition] raises only when the table has an entry and
    ["WeatherIcon"] cannot be read from the snapshot, and then what it raises
    is a [KeyError] or a [TypeError]; in particular the [IndexError] of its
    [[0]] never escapes. *)
Theorem condition_raises_only_unreadable self (e : exn) :
  fst (condition K self) = Raise e ->
  const.CONDITION_CLASSES K <> [] /\
  broken (Coordinator.data (coordinator self)) ["WeatherIcon"] /\
  lookup_failure e.
Proof.
  intros Hr.
  destruct (getitem (Coordinator.data (coordinator self)) "WeatherIcon") as [icon|e'] eqn:Hicon.
  - rewrite (condition_find K self icon Hicon) in Hr. discriminate.
  - assert (Hp : getpath (Coordinator.data (coordinator self)) ["WeatherIcon"] = Raise e')
      by exact Hicon.
    pose proof (getpath_Raise_lookup _ _ _ Hp) as Hl.
    destruct (const.CONDITION_CLASSES K) as [|entry rest] eqn:Htable.
    + unfold condition, try_except_IndexError, bind, reads, ret, classes_of in Hr.
      rewrite Htable in Hr. discriminate.
    + split; [discriminate|].
      split; [apply getpath_broken; exists e'; split; assumption|].
      destruct (condition_fails K self) as (e'' & He'' & Hl'').
      * rewrite Htable. discriminate.
      * apply getpath_broken. exists e'. split; assumption.
      * rewrite He'' in Hr. cbn [fst] in Hr. injection Hr as <-. exact Hl''.
Qed.

(** ** The scalar reads *)

Lemma getpath_leads_to (v : pyval) (p : list string) (x : pyval) :
  getpath v p = Ok x <-> leads_to v p x.
Proof.
  split.
  - revert v. induction p as [|k p IH]; intros v.
    + intros [= <-]. constructor.
    + rewrite getpath_cons. destruct v; cbn [getitem rbind]; try discriminate.
      destruct (d !! k) as [y|] eqn:Hk; cbn [rbind]; [|discriminate].
      intros H. apply leads_through with y; [exact Hk | apply IH; exact H].
  - intros H. induction H as [v | d k y p x Hk _ IH]; [reflexivity|].
    rewrite getpath_cons. cbn [getitem]. rewrite Hk. exact IH.
Qed.

Lemma reads_getpath_value self (p : list string) (x : pyval) :
  leads_to (Coordinator.data (coordinator self)) p x ->
  reads (fun self => getpath (Coordinator.data (coordinator self)) p) self = (Ok x, self).
Proof. intros H. apply getpath_leads_to in H. unfold reads. rewrite H. reflexivity. Qed.

(** X5.  The pressure, the humidity, the wind speed, the wind bearing and
    the visibility are each the value their path leads to in the snapshot,
    returned as it is, and the entity is left as it was. *)
Theorem scalar_reads_value self (x : pyval) :
  let snapshot := Coordinator.data (coordinator self) in
  let metric := const.API_METRIC K in
  (leads_to snapshot ["Pressure"; metric; "Value"] x -> native_pressure K self = (Ok x, self)) /\
  (leads_to snapshot ["RelativeHumidity"] x -> humidity self = (Ok x, self)) /\
  (leads_to snapshot ["Wind"; "Speed"; metric; "Value"] x ->
   native_wind_speed K self = (Ok x, self)) /\
  (leads_to snapshot ["Wind"; "Direction"; "Degrees"] x -> wind_bearing self = (Ok x, self)) /\
  (leads_to snapshot ["Visibility"; metric; "Value"] x ->
   native_visibility K self = (Ok x, self)).
Proof.
  cbv zeta. repeat split; intros H; exact (reads_getpath_value self _ x H).
Qed.

Lemma reads_getpath_raises self (p : list string) (e : exn) :
  fst (reads (fun self => getpath (Coordinator.data (coordinator self)) p) self) = Raise e ->
  broken (Coordinator.data (coordinator self)) p /\ lookup_failure e.
Proof.
  unfold reads. cbn [fst]. intros H.
  pose proof (getpath_Raise_lookup _ _ _ H) as Hl.
  split; [|exact Hl]. apply getpath_broken. exists e. split; assumption.
Qed.

(** X6.  A scalar read raises only when its path is broken in the
    snapshot, and then a [KeyError] or a [TypeError]: on a snapshot in which
    the path can be followed the read returns. *)
Theorem scalar_reads_raise_only_broken self (e : exn) :
  let snapshot := Coordinator.data (coordinator self) in
  let metric := const.API_METRIC K in
  (fst (native_temperature K self) = Raise e ->
   broken snapshot ["Temperature"; metric; "Value"] /\ lookup_failure e) /\
  (fst (native_pressure K self) = Raise e ->
   broken snapshot ["Pressure"; metric; "Value"] /\ lookup_failure e) /\
  (fst (humidity self) = Raise e ->
   broken snapshot ["RelativeHumidity"] /\ lookup_failure e) /\
  (fst (native_wind_speed K self) = Raise e ->
   broken snapshot ["Wind"; "Speed"; metric; "Value"] /\ lookup_failure e) /\
  (fst (wind_bearing self) = Raise e ->
   broken snapshot ["Wind"; "Direction"; "Degrees"] /\ lookup_failure e) /\
  (fst (native_visibility K self) = Raise e ->
   broken snapshot ["Visibility"; metric; "Value"] /\ lookup_failure e).
Proof.
  cbv zeta. repeat apply conj; intros H; apply reads_getpath_raises; exact H.
Qed.

(** ** The forecast *)

(** What an entry was built from, part by part. *)
Lemma forecast_entry_inv (item : pyval) (entry : Forecast) :
  forecast_entry K item = Ok entry ->
  (Ok item).["TemperatureMax"].["Value"] = Ok (ATTR_FORECAST_NATIVE_TEMP entry) /\
  (Ok item).["TemperatureMin"].["Value"] = Ok (ATTR_FORECAST_NATIVE_TEMP_LOW entry) /\
  (Ok item).["TotalLiquidDay"].["Value"] = Ok (ATTR_FORECAST_NATIVE_PRECIPITATION entry) /\
  (Ok item).["PrecipitationProbabilityDay"] = Ok (ATTR_FORECAST_PRECIPITATION_PROBABILITY entry) /\
  (Ok item).["WindDay"].["Speed"].["Value"] = Ok (ATTR_FORECAST_NATIVE_WIND_SPEED entry) /\
  (Ok item).["WindDay"].["Direction"].["Degrees"] = Ok (ATTR_FORECAST_WIND_BEARING entry) /\
  (ks <~ classes_of K (Ok item).["IconDay"] ;; first ks) = Ok (ATTR_FORECAST_CONDITION entry).
Proof.
  unfold forecast_entry. intros H.
  destruct (d <~ (Ok item).["EpochDate"] ;; d0 <~ dt.utc_from_timestamp d ;; Ok (dt.isoformat d0))
    as [time|e]; cbn [rbind] in H; [|discriminate].
  destruct ((Ok item).["TemperatureMax"].["Value"]) as [v1|e]; cbn [rbind] in H; [|discriminate].
  destruct ((Ok item).["TemperatureMin"].["Value"]) as [v2|e]; cbn [rbind] in H; [|discriminate].
  destruct ((Ok item).["TotalLiquidDay"].["Value"]) as [v3|e]; cbn [rbind] in H; [|discriminate].
  destruct ((Ok item).["PrecipitationProbabilityDay"]) as [v4|e]; cbn [rbind] in H; [|discriminate].
  destruct ((Ok item).["WindDay"].["Speed"].["Value"]) as [v5|e]; cbn [rbind] in H; [|discriminate].
  destruct ((Ok item).["WindDay"].["Direction"].["Degrees"]) as [v6|e]; cbn [rbind] in H; [|discriminate].
  destruct (ks <~ classes_of K (Ok item).["IconDay"] ;; first ks) as [c|e]; cbn [rbind] in H; [|discriminate].
  injection H as <-. cbn. repeat split; reflexivity.
Qed.

(** X7.  In an entry of the forecast the two temperatures, the
    precipitation and its probability, the wind speed and the wind bearing
    are the values found in the item under the paths the code reads, as they
    are. *)
Theorem forecast_entry_fields (item : pyval) (entry : Forecast) :
  forecast_entry K item = Ok entry ->
  leads_to item ["TemperatureMax"; "Value"] (ATTR_FORECAST_NATIVE_TEMP entry) /\
  leads_to item ["TemperatureMin"; "Value"] (ATTR_FORECAST_NATIVE_TEMP_LOW entry) /\
  leads_to item ["TotalLiquidDay"; "Value"] (ATTR_FORECAST_NATIVE_PRECIPITATION entry) /\
  leads_to item ["PrecipitationProbabilityDay"] (ATTR_FORECAST_PRECIPITATION_PROBABILITY entry) /\
  leads_to item ["WindDay"; "Speed"; "Value"] (ATTR_FORECAST_NATIVE_WIND_SPEED entry) /\
  leads_to item ["WindDay"; "Direction"; "Degrees"] (ATTR_FORECAST_WIND_BEARING entry).
Proof.
  intros H. destruct (forecast_entry_inv item entry H) as (H1 & H2 & H3 & H4 & H5 & H6 & _).
  repeat split; apply getpath_leads_to; assumption.
Qed.

(** X8.  The condition of an entry of the forecast is the one [condition]
    returns on a snapshot whose current icon is the item's day icon: the two
    classify an icon that is listed alike. *)
Theorem forecast_entry_condition self (item icon : pyval) (entry : Forecast) :
  forecast_entry K item = Ok entry ->
  getitem item "IconDay" = Ok icon ->
  getitem (Coordinator.data (coordinator self)) "WeatherIcon" = Ok icon ->
  condition K self = (Ok (Some (ATTR_FORECAST_CONDITION entry)), self).
Proof.
  intros He Hday Hnow.
  destruct (forecast_entry_inv item entry He) as (_ & _ & _ & _ & _ & _ & Hc).
  change ((Ok item).["IconDay"]) with (getitem item "IconDay") in Hc.
  rewrite Hday, first_classes_of in Hc.
  rewrite (condition_find K self icon Hnow).
  destruct (List.find _ _) as [kv|]; [|discriminate].
  injection Hc as <-. reflexivity.
Qed.

Lemma Forall2_Ok_Forall {A B} (f : A -> res B) (l : list A) (out : list B) :
  Forall2 (fun x y => f x = Ok y) l out -> Forall (fun x => is_Ok (f x)) l.
Proof.
  intros H. induction H as [|x y l out Hx _ IH]; constructor; [exists y; exact Hx | exact IH].
Qed.

(** X9.  With the coordinator's [forecast] attribute true and a list under
    the forecast key, [forecast] returns a sequence exactly when every item
    of the list is complete: one incomplete day and there is no forecast at
    all, not a shorter one. *)
Theorem forecast_all_or_nothing self (items : list pyval) :
  truthy (Coordinator.forecast (coordinator self)) = true ->
  getitem (Coordinator.data (coordinator self)) (const.ATTR_FORECAST K) = Ok (VList items) ->
  (exists entries, forecast K self = (Ok (Some entries), self)) <->
  Forall (complete K) items.
Proof.
  intros Hf Hd. split.
  - intros [entries He]. apply (forecast_of_list K self items Hf Hd) in He.
    apply Forall2_Ok_Forall in He. eapply List.Forall_impl; [|exact He].
    intros item Hi. apply forecast_entry_complete. exact Hi.
  - intros Hc. destruct (comprehension_complete K items Hc) as [entries He].
    exists entries. apply (forecast_of_list K self items Hf Hd).
    apply comprehension_Forall2. exact He.
Qed.

Lemma comprehension_first_failure {A B} (f : A -> res B) (before after : list A) (bad : A) (e : exn) :
  Forall (fun x => is_Ok (f x)) before -> f bad = Raise e ->
  comprehension f (before ++ bad :: after)%list = Raise e.
Proof.
  intros Hb Hbad. induction Hb as [|x before [y Hx] _ IH]; cbn [comprehension app].
  - rewrite Hbad. reflexivity.
  - rewrite Hx, IH. reflexivity.
Qed.

(** X10.  When the days before it are complete, the exception [forecast]
    raises is the one the first failing item raises, whatever comes after
    that item. *)
Theorem forecast_first_failure self (before after : list pyval) (bad : pyval) (e : exn) :
  truthy (Coordinator.forecast (coordinator self)) = true ->
  getitem (Coordinator.data (coordinator self)) (const.ATTR_FORECAST K) =
    Ok (VList (before ++ bad :: after)%list) ->
  Forall (complete K) before ->
  forecast_entry K bad = Raise e ->
  forecast K self = (Raise e, self).
Proof.
  intros Hf Hd Hb Hbad. rewrite (forecast_enabled K self Hf), Hd. cbn [rbind iter].
  rewrite (comprehension_first_failure (forecast_entry K) before after bad e); [reflexivity| |exact Hbad].
  eapply List.Forall_impl; [|exact Hb].
  intros item Hi. apply forecast_entry_complete. exact Hi.
Qed.

(** No entry is built from what is not a mapping. *)
Lemma forecast_entry_not_mapping (item : pyval) :
  (forall d, item <> VDict d) -> forecast_entry K item = Raise TypeError.
Proof.
  intros Hn. unfold forecast_entry.
  destruct item; try reflexivity. exfalso. eapply Hn. reflexivity.
Qed.

(** X11.  From an item that is not a mapping no entry is built: a
    [TypeError].  From a mapping without ["EpochDate"], the first key read, a
    [KeyError] naming that key, whatever else the mapping lacks. *)
Theorem forecast_entry_malformed (item : pyval) :
  ((forall d, item <> VDict d) -> forecast_entry K item = Raise TypeError) /\
  (forall d, item = VDict d -> d !! "EpochDate" = None ->
             forecast_entry K item = Raise (KeyError "EpochDate")).
Proof.
  split.
  - apply forecast_entry_not_mapping.
  - intros d -> Hk. unfold forecast_entry, subscript. cbn [rbind getitem]. rewrite Hk. reflexivity.
Qed.

(** X12.  For an item that has everything else, with a day icon that no
    entry of the table contains, building the entry fails with [IndexError]. *)
Theorem forecast_entry_unlisted_icon (item icon : pyval) :
  is_Ok (d <~ (Ok item).["EpochDate"] ;; dt.utc_from_timestamp d) ->
  is_Ok (Ok item).["TemperatureMax"].["Value"] ->
  is_Ok (Ok item).["TemperatureMin"].["Value"] ->
  is_Ok (Ok item).["TotalLiquidDay"].["Value"] ->
  is_Ok (Ok item).["PrecipitationProbabilityDay"] ->
  is_Ok (Ok item).["WindDay"].["Speed"].["Value"] ->
  is_Ok (Ok item).["WindDay"].["Direction"].["Degrees"] ->
  getitem item "IconDay" = Ok icon ->
  Forall (fun kv => contains icon (snd kv) = false) (const.CONDITION_CLASSES K) ->
  forecast_entry K item = Raise IndexError.
Proof.
  intros H0 [v1 H1] [v2 H2] [v3 H3] [v4 H4] [v5 H5] [v6 H6] Hicon Hmiss.
  unfold forecast_entry. rewrite H1, H2, H3, H4, H5, H6.
  change ((Ok item).["IconDay"]) with (getitem item "IconDay").
  rewrite Hicon, first_classes_of, (find_none _ _ Hmiss).
  destruct ((Ok item).["EpochDate"]) as [ts|e]; cbn [rbind] in *; [|destruct H0; discriminate].
  destruct (dt.utc_from_timestamp ts) as [d|e]; cbn [rbind]; [reflexivity|destruct H0; discriminate].
Qed.

Lemma comprehension_head_failure {A B} (f : A -> res B) (x : A) (l : list A) (e : exn) :
  f x = Raise e -> comprehension f (x :: l) = Raise e.
Proof. intros H. cbn [comprehension]. rewrite H. reflexivity. Qed.

(** X13.  With the attribute true and, under the forecast key, a value
    that is not a list: [None] or a number gives a [TypeError]; a string or a
    mapping gives the empty sequence when it is empty and a [TypeError]
    otherwise (the loop draws characters or keys, and none is a mapping). *)
Theorem forecast_not_a_list self (v : pyval) :
  truthy (Coordinator.forecast (coordinator self)) = true ->
  getitem (Coordinator.data (coordinator self)) (const.ATTR_FORECAST K) = Ok v ->
  (not_iterable v -> forecast K self = (Raise TypeError, self)) /\
  (forall s, v = VStr s -> forecast K self =
     (if String.eqb s "" then Ok (Some []) else Raise TypeError, self)) /\
  (forall d, v = VDict d -> forecast K self =
     (if bool_decide (d = ∅) then Ok (Some []) else Raise TypeError, self)).
Proof.
  intros Hf Hd. rewrite (forecast_enabled K self Hf), Hd. cbn [rbind].
  split; [|split].
  - intros Hn. destruct v; try reflexivity; destruct Hn.
  - intros s ->. cbn [iter rbind]. destruct s as [|c s]; [reflexivity|].
    unfold chars. cbn [list_ascii_of_string fmap list_fmap String.eqb].
    rewrite (comprehension_head_failure (forecast_entry K) _ _ TypeError); [reflexivity|].
    apply forecast_entry_not_mapping. discriminate.
  - intros d ->. cbn [iter rbind]. case_bool_decide as Hempty.
    + subst d. rewrite map_to_list_empty. reflexivity.
    + destruct (map_to_list d) as [|[k x] rest] eqn:Hl.
      * apply map_to_list_empty_iff in Hl. contradiction.
      * cbn [fmap list_fmap fst].
        rewrite (comprehension_head_failure (forecast_entry K) _ _ TypeError); [reflexivity|].
        apply forecast_entry_not_mapping. discriminate.
Qed.

(** X14.  [forecast] depends on the truth of the coordinator's [forecast]
    attribute and on what stands under the forecast key of the data, and on
    nothing else: two entities that agree on these give the same result. *)
Theorem forecast_reads_only_forecast self self' :
  truthy (Coordinator.forecast (coordinator self)) =
    truthy (Coordinator.forecast (coordinator self')) ->
  getitem (Coordinator.data (coordinator self)) (const.ATTR_FORECAST K) =
    getitem (Coordinator.data (coordinator self')) (const.ATTR_FORECAST K) ->
  fst (forecast K self) = fst (forecast K self').
Proof.
  intros Hflag Hdata.
  destruct (truthy (Coordinator.forecast (coordinator self'))) eqn:Hf.
  - rewrite (forecast_enabled K self Hflag), (forecast_enabled K self' Hf), Hdata. reflexivity.
  - rewrite (forecast_disabled K self Hflag), (forecast_disabled K self' Hf). reflexivity.
Qed.

End Further.

(** ** Setting the platform up *)

Section Setup.

Variable K : const.t.
Variable DOMAIN : string.
Variable S : Type.

(** X15.  [async_setup_entry] hands the callback one list of one entity,
    the entity built on the coordinator stored under the domain and the
    entry's identifier.  When the domain or the identifier is not stored it
    raises a [KeyError] naming what is missing, and the callback is not
    called: its state is as before. *)
Theorem async_setup_entry_one_entity (hass : HomeAssistant.t) (entry : ConfigEntry.t)
    (async_add_entities : list AccuWeatherEntity.t -> M S unit) (s : S) :
  (forall stored coordinator,
      HomeAssistant.data hass !! DOMAIN = Some stored ->
      stored !! ConfigEntry.entry_id entry = Some coordinator ->
      async_setup_entry K DOMAIN S hass entry async_add_entities s =
        async_add_entities [__init__ K coordinator] s) /\
  (HomeAssistant.data hass !! DOMAIN = None ->
   async_setup_entry K DOMAIN S hass entry async_add_entities s = (Raise (KeyError DOMAIN), s)) /\
  (forall stored,
      HomeAssistant.data hass !! DOMAIN = Some stored ->
      stored !! ConfigEntry.entry_id entry = None ->
      async_setup_entry K DOMAIN S hass entry async_add_entities s =
        (Raise (KeyError (ConfigEntry.entry_id entry)), s)).
Proof.
  unfold async_setup_entry, bind, reads, stored_coordinator.
  split; [|split].
  - intros stored c Hd He. rewrite Hd, He. reflexivity.
  - intros Hd. rewrite Hd. reflexivity.
  - intros stored Hd He. rewrite Hd, He. reflexivity.
Qed.

End Setup.

(** ** The further properties at sample data *)

(** Code 18 stands under ["pouring"] alone. *)
Lemma condition_unique_name_witness :
  condition Sample.K (Sample.entity (Sample.current (VInt 18) []) (VBool true)) =
    (Ok (Some "pouring"), Sample.entity (Sample.current (VInt 18) []) (VBool true)).
Proof.
  apply (condition_unique_name Sample.K
           (Sample.entity (Sample.current (VInt 18) []) (VBool true)) 18 "pouring" [18] eq_refl).
  - cbn. tauto.
  - left. reflexivity.
  - intros name' codes' Hin Hc. cbn in Hin.
    repeat (destruct Hin as [[= <- <-] | Hin];
            [cbn in Hc; repeat (destruct Hc as [Hc | Hc]; [discriminate Hc|]);
             first [reflexivity | destruct Hc] |]).
    destruct Hin.
Defined.

(** The icon given as the string ["18"]. *)
Lemma condition_not_a_number_witness :
  condition Sample.K (Sample.entity (Sample.current (VStr "18") []) (VBool true)) =
    (Ok None, Sample.entity (Sample.current (VStr "18") []) (VBool true)).
Proof.
  exact (condition_not_a_number Sample.K
           (Sample.entity (Sample.current (VStr "18") []) (VBool true)) (VStr "18") eq_refl I).
Defined.

(** No class, and data that are [None]. *)
Lemma condition_empty_table_witness :
  condition Home.NO_CLASSES (Sample.entity VNone (VBool true)) =
    (Ok None, Sample.entity VNone (VBool true)).
Proof.
  exact (condition_empty_table Home.NO_CLASSES (Sample.entity VNone (VBool true)) eq_refl).
Defined.

(** The malformed payload has no ["WeatherIcon"]. *)
Lemma condition_raises_only_unreadable_witness :
  fst (condition Sample.K (Sample.entity Sample.malformed (VBool true))) =
    Raise (KeyError "WeatherIcon") /\
  broken Sample.malformed ["WeatherIcon"] /\
  lookup_failure (KeyError "WeatherIcon").
Proof.
  assert (H : fst (condition Sample.K (Sample.entity Sample.malformed (VBool true))) =
              Raise (KeyError "WeatherIcon")) by (vm_compute; reflexivity).
  split; [exact H|].
  exact (proj2 (condition_raises_only_unreadable Sample.K
                  (Sample.entity Sample.malformed (VBool true)) (KeyError "WeatherIcon") H)).
Defined.

(** The current conditions of the sample. *)
Lemma scalar_reads_value_witness :
  let self := Sample.entity (Sample.current (VInt 1) []) (VBool true) in
  native_pressure Sample.K self = (Ok (VFloat 1012.0%float), self) /\
  humidity self = (Ok (VInt 67), self) /\
  native_wind_speed Sample.K self = (Ok (VFloat 20.5%float), self) /\
  wind_bearing self = (Ok (VInt 252), self) /\
  native_visibility Sample.K self = (Ok (VFloat 16.0%float), self).
Proof.
  cbv zeta.
  pose (self := Sample.entity (Sample.current (VInt 1) []) (VBool true)).
  split; [|split; [|split; [|split]]].
  - apply (proj1 (scalar_reads_value Sample.K self (VFloat 1012.0%float))).
    apply getpath_leads_to. reflexivity.
  - apply (proj1 (proj2 (scalar_reads_value Sample.K self (VInt 67)))).
    apply getpath_leads_to. reflexivity.
  - apply (proj1 (proj2 (proj2 (scalar_reads_value Sample.K self (VFloat 20.5%float))))).
    apply getpath_leads_to. reflexivity.
  - apply (proj1 (proj2 (proj2 (proj2 (scalar_reads_value Sample.K self (VInt 252)))))).
    apply getpath_leads_to. reflexivity.
  - apply (proj2 (proj2 (proj2 (proj2 (scalar_reads_value Sample.K self (VFloat 16.0%float)))))).
    apply getpath_leads_to. reflexivity.
Defined.

(** On the malformed payload the temperature meets a number where a mapping
    should be, and the humidity a missing key. *)
Lemma scalar_reads_raise_only_broken_witness :
  (broken Sample.malformed ["Temperature"; "Metric"; "Value"] /\ lookup_failure TypeError) /\
  (broken Sample.malformed ["RelativeHumidity"] /\ lookup_failure (KeyError "RelativeHumidity")).
Proof.
  split.
  - exact (proj1 (scalar_reads_raise_only_broken Sample.K
                    (Sample.entity Sample.malformed (VBool true)) TypeError) eq_refl).
  - exact (proj1 (proj2 (proj2 (scalar_reads_raise_only_broken Sample.K
                    (Sample.entity Sample.malformed (VBool true))
                    (KeyError "RelativeHumidity")))) eq_refl).
Defined.

(** One day of the sample and its entry. *)
Lemma forecast_entry_fields_witness :
  forecast_entry Sample.K (Sample.day 0 1) =
    Ok (Sample.entry "1970-01-01T00:00:00+00:00" "sunny") /\
  leads_to (Sample.day 0 1) ["TemperatureMax"; "Value"] (VFloat 23.5%float) /\
  leads_to (Sample.day 0 1) ["TemperatureMin"; "Value"] (VFloat 11.0%float) /\
  leads_to (Sample.day 0 1) ["TotalLiquidDay"; "Value"] (VFloat 2.5%float) /\
  leads_to (Sample.day 0 1) ["PrecipitationProbabilityDay"] (VInt 60) /\
  leads_to (Sample.day 0 1) ["WindDay"; "Speed"; "Value"] (VFloat 13.0%float) /\
  leads_to (Sample.day 0 1) ["WindDay"; "Direction"; "Degrees"] (VInt 166).
Proof.
  assert (H : forecast_entry Sample.K (Sample.day 0 1) =
              Ok (Sample.entry "1970-01-01T00:00:00+00:00" "sunny")) by (vm_compute; reflexivity).
  split; [exact H|].
  exact (forecast_entry_fields Sample.K (Sample.day 0 1)
           (Sample.entry "1970-01-01T00:00:00+00:00" "sunny") H).
Defined.

(** Icon 18 today and icon 18 on the day of the forecast: ["pouring"] both. *)
Lemma forecast_entry_condition_witness :
  condition Sample.K (Sample.entity (Sample.current (VInt 18) []) (VBool true)) =
    (Ok (Some "pouring"), Sample.entity (Sample.current (VInt 18) []) (VBool true)).
Proof.
  assert (H : forecast_entry Sample.K (Sample.day 0 18) =
              Ok (Sample.entry "1970-01-01T00:00:00+00:00" "pouring")) by (vm_compute; reflexivity).
  exact (forecast_entry_condition Sample.K
           (Sample.entity (Sample.current (VInt 18) []) (VBool true))
           (Sample.day 0 18) (VInt 18)
           (Sample.entry "1970-01-01T00:00:00+00:00" "pouring") H eq_refl eq_refl).
Defined.

(** The two days give a forecast, hence each of them is complete. *)
Lemma forecast_all_or_nothing_witness :
  Forall (complete Sample.K) Home.two_days.
Proof.
  apply (proj1 (forecast_all_or_nothing Sample.K
                  (Sample.entity (Home.only_forecast (VList Home.two_days)) (VBool true))
                  Home.two_days eq_refl eq_refl)).
  exists Home.two_entries. vm_compute. reflexivity.
Defined.

(** Of three days the second has an unlisted icon: its [IndexError] is what
    [forecast] raises. *)
Lemma forecast_first_failure_witness :
  forecast Sample.K (Sample.entity (Sample.current (VInt 1) Home.three_days) (VBool true)) =
    (Raise IndexError, Sample.entity (Sample.current (VInt 1) Home.three_days) (VBool true)).
Proof.
  apply (forecast_first_failure Sample.K
           (Sample.entity (Sample.current (VInt 1) Home.three_days) (VBool true))
           [Sample.day 0 1] [Sample.day 172800 1] (Sample.day 86400 99) IndexError eq_refl eq_refl).
  - constructor; [|constructor]. apply forecast_entry_complete.
    exists (Sample.entry "1970-01-01T00:00:00+00:00" "sunny"). vm_compute. reflexivity.
  - vm_compute. reflexivity.
Defined.

(** [None] as an item, and an empty mapping as an item. *)
Lemma forecast_entry_malformed_witness :
  forecast_entry Sample.K VNone = Raise TypeError /\
  forecast_entry Sample.K (VDict ∅) = Raise (KeyError "EpochDate").
Proof.
  split.
  - apply (proj1 (forecast_entry_malformed Sample.K VNone)). discriminate.
  - exact (proj2 (forecast_entry_malformed Sample.K (VDict ∅)) ∅ eq_refl eq_refl).
Defined.

(** A day with icon 99. *)
Lemma forecast_entry_unlisted_icon_witness :
  forecast_entry Sample.K (Sample.day 0 99) = Raise IndexError.
Proof.
  apply (forecast_entry_unlisted_icon Sample.K (Sample.day 0 99) (VInt 99)).
  1-7: eexists; vm_compute; reflexivity.
  - reflexivity.
  - repeat constructor.
Defined.

(** [None], a string and an empty mapping under the forecast key. *)
Lemma forecast_not_a_list_witness :
  forecast Sample.K (Sample.entity (Home.only_forecast VNone) (VBool true)) =
    (Raise TypeError, Sample.entity (Home.only_forecast VNone) (VBool true)) /\
  forecast Sample.K (Sample.entity (Home.only_forecast (VStr "none")) (VBool true)) =
    (Raise TypeError, Sample.entity (Home.only_forecast (VStr "none")) (VBool true)) /\
  forecast Sample.K (Sample.entity (Home.only_forecast (VDict ∅)) (VBool true)) =
    (Ok (Some []), Sample.entity (Home.only_forecast (VDict ∅)) (VBool true)).
Proof.
  split; [|split].
  - exact (proj1 (forecast_not_a_list Sample.K
                    (Sample.entity (Home.only_forecast VNone) (VBool true)) VNone
                    eq_refl eq_refl) I).
  - exact (proj1 (proj2 (forecast_not_a_list Sample.K
                    (Sample.entity (Home.only_forecast (VStr "none")) (VBool true)) (VStr "none")
                    eq_refl eq_refl)) "none" eq_refl).
  - exact (proj2 (proj2 (forecast_not_a_list Sample.K
                    (Sample.entity (Home.only_forecast (VDict ∅)) (VBool true)) (VDict ∅)
                    eq_refl eq_refl)) ∅ eq_refl).
Defined.

(** Another icon today, the same days ahead: the same forecast. *)
Lemma forecast_reads_only_forecast_witness :
  fst (forecast Sample.K (Sample.entity (Sample.current (VInt 1) Home.two_days) (VBool true))) =
  fst (forecast Sample.K (Sample.entity (Sample.current (VInt 18) Home.two_days) (VInt 1))).
Proof.
  exact (forecast_reads_only_forecast Sample.K
           (Sample.entity (Sample.current (VInt 1) Home.two_days) (VBool true))
           (Sample.entity (Sample.current (VInt 18) Home.two_days) (VInt 1))
           eq_refl eq_refl).
Defined.

(** A platform with no entity yet: the stored entry adds one, an entry that
    is not stored adds none. *)
Lemma async_setup_entry_one_entity_witness :
  async_setup_entry Sample.K "accuweather" (list AccuWeatherEntity.t) Home.hass
    {| ConfigEntry.entry_id := "entry-1" |} add_entities [] =
    (Ok tt, [__init__ Sample.K Home.coordinator]) /\
  async_setup_entry Sample.K "accuweather" (list AccuWeatherEntity.t) Home.hass
    {| ConfigEntry.entry_id := "entry-2" |} add_entities [] =
    (Raise (KeyError "entry-2"), []).
Proof.
  split.
  - exact (proj1 (async_setup_entry_one_entity Sample.K "accuweather" (list AccuWeatherEntity.t)
                    Home.hass {| ConfigEntry.entry_id := "entry-1" |} add_entities [])
                 {[ "entry-1" := Home.coordinator ]} Home.coordinator eq_refl eq_refl).
  - exact (proj2 (proj2 (async_setup_entry_one_entity Sample.K "accuweather"
                    (list AccuWeatherEntity.t)
                    Home.hass {| ConfigEntry.entry_id := "entry-2" |} add_entities []))
                 {[ "entry-1" := Home.coordinator ]} eq_refl eq_refl).
Defined.
